(** * The registration process of the hospital backend

    A shallow embedding of [pkg/process]: the handlers that create a
    registration, update its status and manage its milestones, together
    with the access helpers they call, over an explicit model of the
    tables they read and write through gorm.

    Conventions.
    - Go's [uint] and [int] are 64 bits wide; values are kept in [Z] and
      the places where Go wraps are written out ([to_uint], [wrap_int]).
    - A [string] is a sequence of bytes, as in Go.
    - A table is the list of its rows in the order a plain [Find] yields
      them; gorm's [First] orders by primary key. *)

From Stdlib Require Import ZArith List String Ascii Bool Lia.
Import ListNotations.

Local Open Scope string_scope.
Local Open Scope list_scope.
Local Open Scope Z_scope.

(** ** Machine integers *)

Definition maxInt64 : Z := 9223372036854775807.
Definition minInt64 : Z := -9223372036854775808.
Definition maxUint64 : Z := 18446744073709551615.

(** [uint(i)] for a signed [i]. *)
Definition to_uint (i : Z) : Z := i mod 2 ^ 64.

(** Signed 64-bit arithmetic wraps. *)
Definition wrap_int (i : Z) : Z := (i + 2 ^ 63) mod 2 ^ 64 - 2 ^ 63.

(** ** The parts of [strconv] the package calls *)

Module strconv.

Definition digit (a : ascii) : option Z :=
  let n := Z.of_nat (nat_of_ascii a) in
  if (48 <=? n) && (n <=? 57) then Some (n - 48) else None.

(** The digits of [s] read in base ten, most significant first;
    [None] as soon as a byte is not a digit. *)
Fixpoint digits (acc : Z) (s : string) : option Z :=
  match s with
  | EmptyString => Some acc
  | String a rest =>
      match digit a with
      | Some d => digits (acc * 10 + d) rest
      | None => None
      end
  end.

(** [strconv.Atoi]: an optional sign, then at least one digit, and a
    value that fits [int]; anything else is an error. *)
Definition Atoi (s : string) : option Z :=
  match s with
  | EmptyString => None
  | String a rest =>
      let neg := Ascii.eqb a "-" in
      let body := if neg || Ascii.eqb a "+" then rest else s in
      match body with
      | EmptyString => None
      | _ =>
          match digits 0 body with
          | Some n =>
              let v := if neg then - n else n in
              if (minInt64 <=? v) && (v <=? maxInt64) then Some v else None
          | None => None
          end
      end
  end.

(** [strconv.ParseUint(s, 10, 64)]: at least one digit, no sign, and a
    value that fits [uint64]. *)
Definition ParseUint (s : string) : option Z :=
  match s with
  | EmptyString => None
  | _ =>
      match digits 0 s with
      | Some n => if n <=? maxUint64 then Some n else None
      | None => None
      end
  end.

(** [strconv.ParseBool]. *)
Definition ParseBool (s : string) : option bool :=
  if existsb (String.eqb s) ["1"; "t"; "T"; "TRUE"; "true"; "True"]
  then Some true
  else if existsb (String.eqb s) ["0"; "f"; "F"; "FALSE"; "false"; "False"]
  then Some false
  else None.

End strconv.

(** [StrToUInt]: zero when [Atoi] fails, the converted value otherwise. *)
Definition StrToUInt (str : string) : Z :=
  match strconv.Atoi str with
  | None => 0
  | Some i => to_uint i
  end.

(** ** Data model *)

(** [RegistrationStatusEnum] and [HalfDayEnum] are string types. *)
Definition RegistrationStatusEnum := string.
Definition committed : RegistrationStatusEnum := "committed".
Definition accepted : RegistrationStatusEnum := "accepted".
Definition terminated : RegistrationStatusEnum := "terminated".

Definition HalfDayEnum := string.
Definition morning : HalfDayEnum := "morning".
Definition afternoon : HalfDayEnum := "afternoon".
Definition whole : HalfDayEnum := "whole".

(** Modelled from the spec: the rows of package [account] that the
    handlers read ([account.Account], [account.Doctor],
    [account.Patient]); only the fields the handlers name are kept. *)
Module Account.
Record t := mk { ID : Z; FirstName : string; LastName : string }.
Definition zero : t := mk 0 "" "".
End Account.

Module Doctor.
Record t := mk { ID : Z; AccountID : Z; DepartmentID : Z }.
Definition zero : t := mk 0 0 0.
End Doctor.

Module Patient.
Record t := mk { ID : Z; AccountID : Z }.
Definition zero : t := mk 0 0.
End Patient.

Module Department.
Record t := mk { ID : Z; Name : string; Detail : string }.
Definition zero : t := mk 0 "" "".
End Department.

(** Modelled from the spec: the handlers read and write [Year], [Month]
    and [Day] on registrations and schedules where the model file of the
    tree declares [Date time.Time]; the records carry the slot identity
    (department, calendar date, half-day period) with the fields the
    handlers use. *)
Module Registration.
Record t := mk {
  ID : Z;
  DoctorID : Z;
  PatientID : Z;
  DepartmentID : Z;
  Year : Z;
  Month : Z;
  Day : Z;
  HalfDay : HalfDayEnum;
  Status : RegistrationStatusEnum;
  TerminatedCause : string
}.
Definition zero : t := mk 0 0 0 0 0 0 0 "" "" "".
Definition set_ID (v : Z) (r : t) : t :=
  mk v (DoctorID r) (PatientID r) (DepartmentID r) (Year r) (Month r)
     (Day r) (HalfDay r) (Status r) (TerminatedCause r).
Definition set_DoctorID (v : Z) (r : t) : t :=
  mk (ID r) v (PatientID r) (DepartmentID r) (Year r) (Month r)
     (Day r) (HalfDay r) (Status r) (TerminatedCause r).
Definition set_PatientID (v : Z) (r : t) : t :=
  mk (ID r) (DoctorID r) v (DepartmentID r) (Year r) (Month r)
     (Day r) (HalfDay r) (Status r) (TerminatedCause r).
Definition set_Status (v : RegistrationStatusEnum) (r : t) : t :=
  mk (ID r) (DoctorID r) (PatientID r) (DepartmentID r) (Year r) (Month r)
     (Day r) (HalfDay r) v (TerminatedCause r).
Definition set_TerminatedCause (v : string) (r : t) : t :=
  mk (ID r) (DoctorID r) (PatientID r) (DepartmentID r) (Year r) (Month r)
     (Day r) (HalfDay r) (Status r) v.
End Registration.

Module MileStone.
Record t := mk {
  ID : Z;
  RegistrationID : Z;
  Activity : string;
  Checked : bool
}.
Definition zero : t := mk 0 0 "" false.
Definition set_ID (v : Z) (m : t) : t :=
  mk v (RegistrationID m) (Activity m) (Checked m).
Definition set_Activity (v : string) (m : t) : t :=
  mk (ID m) (RegistrationID m) v (Checked m).
Definition set_Checked (v : bool) (m : t) : t :=
  mk (ID m) (RegistrationID m) (Activity m) v.
End MileStone.

Module DepartmentSchedule.
Record t := mk {
  ID : Z;
  DepartmentID : Z;
  Year : Z;
  Month : Z;
  Day : Z;
  HalfDay : HalfDayEnum;
  Capacity : Z;
  Current : Z
}.
Definition zero : t := mk 0 0 0 0 0 "" 0 0.
Definition set_ID (v : Z) (s : t) : t :=
  mk v (DepartmentID s) (Year s) (Month s) (Day s) (HalfDay s)
     (Capacity s) (Current s).
Definition set_Current (v : Z) (s : t) : t :=
  mk (ID s) (DepartmentID s) (Year s) (Month s) (Day s) (HalfDay s)
     (Capacity s) v.
End DepartmentSchedule.

(** The constants of the package's error table, declared outside the
    files at hand; the handlers only pass them to [api.Return]. *)
Inductive ProcessError :=
| InvalidSubmitFormat
| DepartmentNotFound
| PatientNotFound
| DuplicateRegistration
| InvalidSchedule
| NotEnoughCapacity
| CannotAssignDoctor
| InvalidRegistration.

(** ** The store *)

Module DB.
Record t := mk {
  accounts : list Account.t;
  departments : list Department.t;
  doctors : list Doctor.t;
  patients : list Patient.t;
  registrations : list Registration.t;
  schedules : list DepartmentSchedule.t;
  mileStones : list MileStone.t
}.
Definition set_registrations (v : list Registration.t) (d : t) : t :=
  mk (accounts d) (departments d) (doctors d) (patients d) v
     (schedules d) (mileStones d).
Definition set_schedules (v : list DepartmentSchedule.t) (d : t) : t :=
  mk (accounts d) (departments d) (doctors d) (patients d)
     (registrations d) v (mileStones d).
Definition set_mileStones (v : list MileStone.t) (d : t) : t :=
  mk (accounts d) (departments d) (doctors d) (patients d)
     (registrations d) (schedules d) v.
End DB.

(** A gorm model: a row type with its primary key. *)
Class Model (A : Type) := { pk : A -> Z; zeroValue : A }.

#[global] Instance Model_Account : Model Account.t :=
  {| pk := Account.ID; zeroValue := Account.zero |}.
#[global] Instance Model_Department : Model Department.t :=
  {| pk := Department.ID; zeroValue := Department.zero |}.
#[global] Instance Model_Doctor : Model Doctor.t :=
  {| pk := Doctor.ID; zeroValue := Doctor.zero |}.
#[global] Instance Model_Patient : Model Patient.t :=
  {| pk := Patient.ID; zeroValue := Patient.zero |}.
#[global] Instance Model_Registration : Model Registration.t :=
  {| pk := Registration.ID; zeroValue := Registration.zero |}.
#[global] Instance Model_MileStone : Model MileStone.t :=
  {| pk := MileStone.ID; zeroValue := MileStone.zero |}.
#[global] Instance Model_DepartmentSchedule : Model DepartmentSchedule.t :=
  {| pk := DepartmentSchedule.ID; zeroValue := DepartmentSchedule.zero |}.

Module gorm.

(** [First]: of the rows selected by [p], the one with the least
    primary key (the earliest such row should keys repeat). *)
Fixpoint First {A} `{Model A} (p : A -> bool) (rows : list A) : option A :=
  match rows with
  | [] => None
  | r :: rest =>
      if p r then
        match First p rest with
        | Some r' => if pk r' <? pk r then Some r' else Some r
        | None => Some r
        end
      else First p rest
  end.

(** [Find]: the selected rows, in the order the table yields them. *)
Definition Find {A} (p : A -> bool) (rows : list A) : list A := filter p rows.

(** [Count]. *)
Definition Count {A} (p : A -> bool) (rows : list A) : Z :=
  Z.of_nat (List.length (filter p rows)).

(** A struct passed to [Where] constrains only by its non-zero fields. *)
Definition condZ (q v : Z) : bool := (q =? 0) || (q =? v).
Definition condS (q v : string) : bool := String.eqb q "" || String.eqb q v.

Definition whereRegistration (q r : Registration.t) : bool :=
  condZ (Registration.ID q) (Registration.ID r)
  && condZ (Registration.DoctorID q) (Registration.DoctorID r)
  && condZ (Registration.PatientID q) (Registration.PatientID r)
  && condZ (Registration.DepartmentID q) (Registration.DepartmentID r)
  && condZ (Registration.Year q) (Registration.Year r)
  && condZ (Registration.Month q) (Registration.Month r)
  && condZ (Registration.Day q) (Registration.Day r)
  && condS (Registration.HalfDay q) (Registration.HalfDay r)
  && condS (Registration.Status q) (Registration.Status r)
  && condS (Registration.TerminatedCause q) (Registration.TerminatedCause r).

Definition whereSchedule (q s : DepartmentSchedule.t) : bool :=
  condZ (DepartmentSchedule.ID q) (DepartmentSchedule.ID s)
  && condZ (DepartmentSchedule.DepartmentID q) (DepartmentSchedule.DepartmentID s)
  && condZ (DepartmentSchedule.Year q) (DepartmentSchedule.Year s)
  && condZ (DepartmentSchedule.Month q) (DepartmentSchedule.Month s)
  && condZ (DepartmentSchedule.Day q) (DepartmentSchedule.Day s)
  && condS (DepartmentSchedule.HalfDay q) (DepartmentSchedule.HalfDay s)
  && condZ (DepartmentSchedule.Capacity q) (DepartmentSchedule.Capacity s)
  && condZ (DepartmentSchedule.Current q) (DepartmentSchedule.Current s).

(** An inline condition given as a string: a string [Atoi] accepts is
    a primary key, the empty string is no condition at all, and any
    other string is handed to the database as it is ([raw]). *)
Definition inlineCond {A} `{Model A} (raw : string -> A -> bool)
    (cond : string) : option (A -> bool) :=
  match strconv.Atoi cond with
  | Some n => Some (fun r => pk r =? n)
  | None => if String.eqb cond "" then None else Some (raw cond)
  end.

Definition FirstInline {A} `{Model A} (raw : string -> A -> bool)
    (cond : string) (rows : list A) : option A :=
  match inlineCond raw cond with
  | Some p => First p rows
  | None => First (fun _ => true) rows
  end.

(** [Delete] with an inline condition; gorm refuses to delete without
    any condition. *)
Definition DeleteInline {A} `{Model A} (raw : string -> A -> bool)
    (cond : string) (rows : list A) : list A :=
  match inlineCond raw cond with
  | Some p => filter (fun r => negb (p r)) rows
  | None => rows
  end.

(** [Save] of a row read from the table: a zero key inserts under the
    key the database hands out; otherwise the rows with that key are
    overwritten, and the row is inserted when there was none. *)
Definition Save {A} `{Model A} (setpk : Z -> A -> A) (newID : Z)
    (row : A) (rows : list A) : list A :=
  if pk row =? 0 then rows ++ [setpk newID row]
  else if existsb (fun r => pk r =? pk row) rows
       then map (fun r => if pk r =? pk row then row else r) rows
       else rows ++ [row].

End gorm.

(** ** Requests, responses and the world a handler runs in *)

Record RegistrationSubmitJSON := mkSubmit {
  submit_DepartmentID : Z;
  submit_Year : Z;
  submit_Month : Z;
  submit_Day : Z;
  submit_HalfDay : HalfDayEnum
}.

Record RegistrationSuccessJSON := mkSuccess {
  success_ID : Z;
  success_Department : string;
  success_Doctor : string;
  success_Patient : string;
  success_Year : Z;
  success_Month : Z;
  success_Day : Z;
  success_HalfDay : HalfDayEnum
}.

(** [echo.Context]: path parameters, query parameters, the body as
    [Bind] decodes it ([None] when decoding fails) and the account id the
    authentication layer stored under ["id"]. *)
Record Context := mkContext {
  params : list (string * string);
  queryParams : list (string * string);
  body : option RegistrationSubmitJSON;
  accountID : option Z
}.

Fixpoint assoc (name : string) (kvs : list (string * string)) : string :=
  match kvs with
  | [] => ""
  | (k, v) :: rest => if String.eqb k name then v else assoc name rest
  end.

(** A parameter that is not there reads as the empty string. *)
Definition Param (c : Context) (name : string) : string := assoc name (params c).
Definition QueryParam (c : Context) (name : string) : string :=
  assoc name (queryParams c).

Definition set_Param (name v : string) (c : Context) : Context :=
  mkContext ((name, v) :: params c) (queryParams c) (body c) (accountID c).

(** What surrounds one request: the key the database hands to an
    inserted row, whether [Create] and [Save] report an error (the
    handlers test both), and the time on the clock. *)
Record Env := mkEnv {
  insertID : Z;
  createFails : bool;
  saveFails : bool;
  now : Z
}.

Inductive Payload :=
| Nil
| Err (e : ProcessError)
| GoError
| Message (s : string)
| Success (s : RegistrationSuccessJSON)
| OneRegistration (r : Registration.t).

(** [c.JSON(code, api.Return(status, data))], or a run-time panic. *)
Inductive Response :=
| JSON (code : Z) (status : string) (data : Payload)
| Panic.

Definition StatusOK : Z := 200.
Definition StatusCreated : Z := 201.
Definition StatusBadRequest : Z := 400.
Definition StatusForbidden : Z := 403.
Definition StatusNotAcceptable : Z := 406.
Definition StatusUnprocessableEntity : Z := 422.

Inductive Table := Registrations | Schedules | MileStones.

(** A write statement sent to the database, with the state of
    [registrationMutex] at that moment. *)
Record Write := mkWrite { table : Table; holding : bool }.

Record World := mkWorld {
  db : DB.t;
  registrationMutex : bool;
  writes : list Write
}.

(** Handlers thread the world and may return early with a response. *)
Definition M (A : Type) : Type := World -> (Response + A) * World.

Definition ret {A} (a : A) : M A := fun w => (inr a, w).
Definition bind {A B} (m : M A) (k : A -> M B) : M B :=
  fun w => match m w with
           | (inl r, w') => (inl r, w')
           | (inr a, w') => k a w'
           end.
Definition Return {A} (r : Response) : M A := fun w => (inl r, w).

Declare Scope handler_scope.
Delimit Scope handler_scope with handler.
Notation "x <- m ;; k" := (bind m (fun x => k))
  (at level 61, m at next level, right associativity) : handler_scope.
Notation "m ;; k" := (bind m (fun _ => k))
  (at level 61, right associativity) : handler_scope.
Local Open Scope handler_scope.

Definition serve (h : M Response) (w : World) : Response * World :=
  match h w with
  | (inl r, w') => (r, w')
  | (inr r, w') => (r, w')
  end.

Definition query {A} (f : DB.t -> A) : M A := fun w => (inr (f (db w)), w).

Definition exec (t : Table) (f : DB.t -> DB.t) : M unit :=
  fun w => (inr tt, mkWorld (f (db w)) (registrationMutex w)
                            (writes w ++ [mkWrite t (registrationMutex w)])).

Definition Lock : M unit :=
  fun w => (inr tt, mkWorld (db w) true (writes w)).
Definition Unlock : M unit :=
  fun w => (inr tt, mkWorld (db w) false (writes w)).

Definition orReturn {A} (o : option A) (r : Response) : M A :=
  match o with
  | Some a => ret a
  | None => Return r
  end.

Definition orZero {A} `{Model A} (o : option A) : A :=
  match o with
  | Some a => a
  | None => zeroValue
  end.

(** [db.Create]: on success the row is stored under the key the database
    hands out, with the column defaults in place of zero values, and the
    key is written back to the caller's struct; on error the table stays
    as it was and the result is [None]. *)
Definition CreateRegistrationRow (env : Env) (r : Registration.t)
    : M (option Registration.t) :=
  if createFails env then exec Registrations (fun d => d) ;; ret None
  else
    let key := if Registration.ID r =? 0 then insertID env else Registration.ID r in
    let stored :=
      Registration.set_ID key
        (if String.eqb (Registration.Status r) ""
         then Registration.set_Status committed r else r) in
    exec Registrations
      (fun d => DB.set_registrations (DB.registrations d ++ [stored]) d) ;;
    ret (Some (Registration.set_ID key r)).

Definition CreateMileStoneRow (env : Env) (m : MileStone.t)
    : M (option MileStone.t) :=
  if createFails env then exec MileStones (fun d => d) ;; ret None
  else
    let key := if MileStone.ID m =? 0 then insertID env else MileStone.ID m in
    exec MileStones
      (fun d => DB.set_mileStones (DB.mileStones d ++ [MileStone.set_ID key m]) d) ;;
    ret (Some (MileStone.set_ID key m)).

(** [db.Save(&schedule)]; [false] on error. *)
Definition SaveSchedule (env : Env) (s : DepartmentSchedule.t) : M bool :=
  if saveFails env then exec Schedules (fun d => d) ;; ret false
  else
    exec Schedules
      (fun d => DB.set_schedules
                  (gorm.Save DepartmentSchedule.set_ID (insertID env) s
                             (DB.schedules d)) d) ;;
    ret true.

(** The functions of the package that the handlers call and that live
    outside the files at hand. *)
Class Externals := {
  (** [validateSchedule(&schedule)]: the slot is not in the past, by the
      clock given as first argument. *)
  validateSchedule : Z -> DepartmentSchedule.t -> bool;
  (** the validator registered for the [halfday] tag *)
  validateHalfDay : HalfDayEnum -> bool;
  (** how the database, holding the given store, evaluates on a row a
      condition gorm passes on verbatim (the condition may look at the
      tables) *)
  rawRegistration : DB.t -> string -> Registration.t -> bool;
  rawMileStone : DB.t -> string -> MileStone.t -> bool
}.

(** ** The handlers *)

Section Handlers.

Context {ext : Externals}.

(** The scan for the least count: [acc] is [(minCount, minIndex)] and
    [i] the index of the doctor at the head of [ds]; every pass issues
    the count query again. *)
Fixpoint scanDoctors (registration : Registration.t) (ds : list Doctor.t)
    (i : Z) (acc : Z * Z) : M (Z * Z) :=
  match ds with
  | [] => ret acc
  | _ :: rest =>
      count <- query (fun d =>
                 gorm.Count (gorm.whereRegistration registration)
                            (DB.registrations d)) ;;
      scanDoctors registration rest (i + 1)
        (if fst acc >? count then (count, i) else acc)
  end.

Definition CreateRegistration (env : Env) (c : Context) : M Response :=
  (* extract submit data *)
  submit <- orReturn (body c)
              (JSON StatusBadRequest "error" (Err InvalidSubmitFormat)) ;;
  (* validate halfday enum *)
  (if validateHalfDay (submit_HalfDay submit) then ret tt
   else Return (JSON StatusBadRequest "error" (Err InvalidSubmitFormat))) ;;
  (* get department *)
  found <- query (fun d =>
             gorm.First (fun x => Department.ID x =? submit_DepartmentID submit)
                        (DB.departments d)) ;;
  department <- orReturn found
                  (JSON StatusBadRequest "error" (Err DepartmentNotFound)) ;;
  (* get patient *)
  id <- orReturn (accountID c) Panic ;;
  found <- query (fun d =>
             gorm.First (fun x => Patient.AccountID x =? id) (DB.patients d)) ;;
  patient <- orReturn found
               (JSON StatusBadRequest "error" (Err PatientNotFound)) ;;
  (* check duplicate registration *)
  possibleDuplicates <- query (fun d =>
    gorm.Find
      (gorm.whereRegistration
         (Registration.mk 0 0 (Patient.ID patient) (Department.ID department)
            (submit_Year submit) (submit_Month submit) (submit_Day submit)
            (submit_HalfDay submit) "" ""))
      (DB.registrations d)) ;;
  (if existsb (fun r => negb (String.eqb (Registration.Status r) terminated))
              possibleDuplicates
   then Return (JSON StatusBadRequest "error" (Err DuplicateRegistration))
   else ret tt) ;;
  (* use mutex to prevent conflict *)
  Lock ;;
  (* check schedule *)
  found <- query (fun d =>
    gorm.First
      (gorm.whereSchedule
         (DepartmentSchedule.mk 0 (Department.ID department)
            (submit_Year submit) (submit_Month submit) (submit_Day submit)
            (submit_HalfDay submit) 0 0))
      (DB.schedules d)) ;;
  schedule <-
    match found with
    | None =>
        Unlock ;; Return (JSON StatusBadRequest "error" (Err InvalidSchedule))
    | Some schedule =>
        if negb (validateSchedule (now env) schedule) then
          Unlock ;; Return (JSON StatusBadRequest "error" (Err InvalidSchedule))
        else if DepartmentSchedule.Current schedule
                >=? DepartmentSchedule.Capacity schedule then
          Unlock ;;
          Return (JSON StatusBadRequest "error" (Err NotEnoughCapacity))
        else ret schedule
    end ;;
  (* assign the doctor with the minimal registrations *)
  doctors <- query (fun d =>
    gorm.Find (fun x => Doctor.DepartmentID x =? Department.ID department)
              (DB.doctors d)) ;;
  let registration :=
    Registration.mk 0 0 0 (Department.ID department)
      (submit_Year submit) (submit_Month submit) (submit_Day submit)
      (submit_HalfDay submit) "" "" in
  (* find min count of registrations *)
  best <- scanDoctors registration doctors 0 (maxInt64, -1) ;;
  let minIndex := snd best in
  (* cannot find a doctor *)
  (if minIndex =? -1 then
     Unlock ;; Return (JSON StatusBadRequest "error" (Err CannotAssignDoctor))
   else ret tt) ;;
  (* process schedule *)
  let registration := Registration.set_PatientID (Patient.ID patient) registration in
  let registration :=
    Registration.set_DoctorID
      (Doctor.ID (nth (Z.to_nat minIndex) doctors Doctor.zero)) registration in
  created <- CreateRegistrationRow env registration ;;
  registration <-
    match created with
    | None =>
        Unlock ;;
        Return (JSON StatusNotAcceptable "error" (Err InvalidRegistration))
    | Some registration => ret registration
    end ;;
  let schedule :=
    DepartmentSchedule.set_Current
      (wrap_int (DepartmentSchedule.Current schedule + 1)) schedule in
  saved <- SaveSchedule env schedule ;;
  (if saved then ret tt
   else Unlock ;; Return (JSON StatusBadRequest "error" (Err InvalidSchedule))) ;;
  (* get name *)
  patientAccount <- query (fun d => orZero
    (gorm.First (fun x => Account.ID x =? Registration.PatientID registration)
                (DB.accounts d))) ;;
  doctor <- query (fun d => orZero
    (gorm.First (fun x => Doctor.ID x =? Registration.DoctorID registration)
                (DB.doctors d))) ;;
  doctorAccount <- query (fun d => orZero
    (gorm.First (fun x => Account.ID x =? Doctor.AccountID doctor)
                (DB.accounts d))) ;;
  let success :=
    mkSuccess (Registration.ID registration) (Department.Name department)
      (Account.LastName doctorAccount ++ Account.FirstName doctorAccount)
      (Account.LastName patientAccount ++ Account.FirstName patientAccount)
      (Registration.Year registration) (Registration.Month registration)
      (Registration.Day registration) (Registration.HalfDay registration) in
  Unlock ;;
  ret (JSON StatusOK "ok" (Success success)).

Definition DoctorAccessToMileStone (c : Context) : M bool :=
  mileStone <- query (fun d => orZero
    (gorm.FirstInline (rawMileStone d) (Param c "mileStoneID") (DB.mileStones d))) ;;
  registrations <- query (fun d => orZero
    (gorm.First (fun x => Registration.ID x =? MileStone.RegistrationID mileStone)
                (DB.registrations d))) ;;
  if StrToUInt (Param c "DoctorID") =? Registration.DoctorID registrations
  then ret true
  else ret false.

Definition DoctorAccessToRegistration (c : Context) : M bool :=
  registrations <- query (fun d => orZero
    (gorm.FirstInline (rawRegistration d) (Param c "registrationID")
                      (DB.registrations d))) ;;
  if StrToUInt (Param c "DoctorID") =? Registration.DoctorID registrations
  then ret true
  else ret false.

Definition PatientAccessToRegistration (c : Context) : M bool :=
  registrations <- query (fun d => orZero
    (gorm.FirstInline (rawRegistration d) (Param c "registrationID")
                      (DB.registrations d))) ;;
  if StrToUInt (Param c "PatientID") =? Registration.PatientID registrations
  then ret true
  else ret false.

Definition GetRegistrationByPatient (c : Context) : M Response :=
  access <- PatientAccessToRegistration c ;;
  (if access then Return (JSON StatusForbidden "unauthorized" Nil) else ret tt) ;;
  registration <- query (fun d => orZero
    (gorm.FirstInline (rawRegistration d) (Param c "RegistrationID")
                      (DB.registrations d))) ;;
  ret (JSON StatusCreated "ok" (OneRegistration registration)).

Definition GetRegistrationByDoctor (c : Context) : M Response :=
  access <- DoctorAccessToRegistration c ;;
  (if access then Return (JSON StatusForbidden "unauthorized" Nil) else ret tt) ;;
  registration <- query (fun d => orZero
    (gorm.FirstInline (rawRegistration d) (Param c "RegistrationID")
                      (DB.registrations d))) ;;
  ret (JSON StatusCreated "ok" (OneRegistration registration)).

(** The handler works on the struct it loaded and returns; no
    statement is sent to the database after the read. *)
Definition UpdateRegistrationStatus (c : Context) : M Response :=
  registrationID <- orReturn (strconv.ParseUint (QueryParam c "registrationID"))
                      (JSON StatusBadRequest "error" GoError) ;;
  (* validation for status: select in frontend *)
  let status : RegistrationStatusEnum := QueryParam c "status" in
  let terminatedCause := QueryParam c "terminatedCause" in
  found <- query (fun d =>
    gorm.First (fun x => Registration.ID x =? registrationID)
               (DB.registrations d)) ;;
  registration <- orReturn found (JSON StatusBadRequest "error" GoError) ;;
  let registration := Registration.set_Status status registration in
  registration <-
    (if String.eqb status terminated then
       if negb (String.eqb terminatedCause "") then
         let registration := Registration.set_Status status registration in
         ret (Registration.set_TerminatedCause terminatedCause registration)
       else
         Return (JSON StatusBadRequest "ok" (Message "Missing terminated causes"))
     else ret (Registration.set_Status status registration)) ;;
  ret (JSON StatusCreated "ok" Nil).

Definition CreateMileStoneByDoctor (env : Env) (c : Context) : M Response :=
  registrationID <- orReturn (strconv.ParseUint (QueryParam c "registrationID"))
                      (JSON StatusBadRequest "error" GoError) ;;
  let milestone :=
    MileStone.mk 0 registrationID (QueryParam c "activity") false in
  result <- CreateMileStoneRow env milestone ;;
  match result with
  | None => Return (JSON StatusUnprocessableEntity "error" GoError)
  | Some _ => ret (JSON StatusCreated "ok" Nil)
  end.

(** As above: [milestone] is a local struct, changed and dropped. *)
Definition UpdateMileStoneByDoctor (c : Context) : M Response :=
  access <- DoctorAccessToMileStone c ;;
  (if access then Return (JSON StatusForbidden "unauthorized" Nil) else ret tt) ;;
  milestone <- query (fun d => orZero
    (gorm.FirstInline (rawMileStone d) (QueryParam c "mileStoneID")
                      (DB.mileStones d))) ;;
  checked <- orReturn (strconv.ParseBool (Param c "checked"))
               (JSON StatusBadRequest "error" GoError) ;;
  let milestone := MileStone.set_Checked checked milestone in
  let milestone := MileStone.set_Activity (QueryParam c "activity") milestone in
  ret (JSON StatusOK "ok" Nil).

Definition DeleteMileStoneByDoctor (c : Context) : M Response :=
  access <- DoctorAccessToMileStone c ;;
  (if access then Return (JSON StatusForbidden "unauthorized" Nil) else ret tt) ;;
  exec MileStones (fun d =>
    DB.set_mileStones
      (gorm.DeleteInline (rawMileStone d) (Param c "mileStoneID") (DB.mileStones d))
      d) ;;
  ret (JSON StatusOK "ok" Nil).

(** The requests that reach these handlers, and runs of them one
    after the other. *)
Inductive Request :=
| PostRegistration (env : Env) (c : Context)
| GetPatientRegistration (c : Context)
| GetDoctorRegistration (c : Context)
| PutRegistration (c : Context)
| PostMileStone (env : Env) (c : Context)
| PutMileStone (c : Context)
| DeleteMileStone (c : Context).

Definition handler (r : Request) : M Response :=
  match r with
  | PostRegistration env c => CreateRegistration env c
  | GetPatientRegistration c => GetRegistrationByPatient c
  | GetDoctorRegistration c => GetRegistrationByDoctor c
  | PutRegistration c => UpdateRegistrationStatus c
  | PostMileStone env c => CreateMileStoneByDoctor env c
  | PutMileStone c => UpdateMileStoneByDoctor c
  | DeleteMileStone c => DeleteMileStoneByDoctor c
  end.

Fixpoint run (rs : list Request) (w : World) : World :=
  match rs with
  | [] => w
  | r :: rest => run rest (snd (serve (handler r) w))
  end.

End Handlers.

(** ** Sample data

    One department with two doctors, three patients and one morning
    slot of capacity two. *)

#[global] Instance sampleExternals : Externals := {|
  validateSchedule := fun today s =>
    today <=? DepartmentSchedule.Year s * 10000
              + DepartmentSchedule.Month s * 100 + DepartmentSchedule.Day s;
  validateHalfDay := fun h => existsb (String.eqb h) [morning; afternoon; whole];
  rawRegistration := fun _ _ _ => false;
  rawMileStone := fun _ _ _ => false
|}.

Definition sampleDB (rs : list Registration.t) (current : Z) : DB.t :=
  DB.mk
    [Account.mk 1 "Ann" "Abel"; Account.mk 2 "Bob" "Blum";
     Account.mk 3 "Cy" "Cole"; Account.mk 4 "Dee" "Dorn";
     Account.mk 5 "Eve" "Egan"]
    [Department.mk 1 "Cardiology" "heart"]
    [Doctor.mk 1 4 1; Doctor.mk 2 5 1]
    [Patient.mk 1 1; Patient.mk 2 2; Patient.mk 3 3]
    rs
    [DepartmentSchedule.mk 1 1 2024 5 1 morning 2 current]
    [MileStone.mk 1 1 "x-ray" false].

Definition sampleWorld (rs : list Registration.t) (current : Z) : World :=
  mkWorld (sampleDB rs current) false [].

(** The booking of patient 2 with doctor 1 in the sample slot. *)
Definition booking1 (status : RegistrationStatusEnum) (cause : string)
    : Registration.t :=
  Registration.mk 1 1 2 1 2024 5 1 morning status cause.

(** A request for the sample slot by the patient of account [a]. *)
Definition admission (a : Z) : Context :=
  mkContext [] [] (Some (mkSubmit 1 2024 5 1 morning)) (Some a).

Definition asDoctor (doctorID mileStoneID : string)
    (query : list (string * string)) : Context :=
  mkContext [("mileStoneID", mileStoneID); ("DoctorID", doctorID)] query
            None None.

Definition statusUpdate (registrationID status cause : string) : Context :=
  mkContext []
    [("registrationID", registrationID); ("status", status);
     ("terminatedCause", cause)] None None.

Definition sampleSubmit : RegistrationSubmitJSON := mkSubmit 1 2024 5 1 morning.
Definition sampleSlot (current : Z) : DepartmentSchedule.t :=
  DepartmentSchedule.mk 1 1 2024 5 1 morning 2 current.
Definition cardiology : Department.t := Department.mk 1 "Cardiology" "heart".

(** Four requests for the empty sample slot: patient 1, patient 1 again,
    patient 2, patient 3. *)
Definition sampleRun : list Request :=
  [PostRegistration (mkEnv 1 false false 20240420) (admission 1);
   PostRegistration (mkEnv 2 false false 20240420) (admission 1);
   PostRegistration (mkEnv 2 false false 20240420) (admission 2);
   PostRegistration (mkEnv 3 false false 20240420) (admission 3)].

(** ** Notions the properties are stated with *)

(** An admission went through exactly when it is answered with 200. *)
Definition succeeded (r : Response) : bool :=
  match r with
  | JSON code _ _ => code =? StatusOK
  | Panic => false
  end.

(** The stored row of a booking or of a milestone, by key. *)
Definition storedRegistration (k : Z) (w : World) : option Registration.t :=
  gorm.First (fun x => Registration.ID x =? k) (DB.registrations (db w)).

Definition storedMileStone (k : Z) (w : World) : option MileStone.t :=
  gorm.First (fun x => MileStone.ID x =? k) (DB.mileStones (db w)).

(** Occupancy within capacity, both being values of Go's [int]. *)
Definition slot_ok (s : DepartmentSchedule.t) : Prop :=
  minInt64 <= DepartmentSchedule.Current s
  /\ DepartmentSchedule.Current s <= DepartmentSchedule.Capacity s
  /\ DepartmentSchedule.Capacity s <= maxInt64.

(** Primary keys: distinct and not zero. *)
Definition keyed (ss : list DepartmentSchedule.t) : Prop :=
  NoDup (map DepartmentSchedule.ID ss)
  /\ ~ In 0 (map DepartmentSchedule.ID ss).

(** The slot a submitted form names: the row the schedule query of
    [CreateRegistration] yields. *)
Definition slotOf (submit : RegistrationSubmitJSON) (w : World)
    : option DepartmentSchedule.t :=
  gorm.First
    (gorm.whereSchedule
       (DepartmentSchedule.mk 0 (submit_DepartmentID submit)
          (submit_Year submit) (submit_Month submit) (submit_Day submit)
          (submit_HalfDay submit) 0 0))
    (DB.schedules (db w)).

(** A write to the schedule table is guarded when the mutex was held. *)
Definition guarded (x : Write) : bool :=
  match table x with
  | Schedules => holding x
  | _ => true
  end.

(** The booking [r] is for the patient, department, date and period of
    the request. *)
Definition sameBooking (submit : RegistrationSubmitJSON)
    (department : Department.t) (patient : Patient.t) (r : Registration.t)
    : Prop :=
  Registration.PatientID r = Patient.ID patient
  /\ Registration.DepartmentID r = Department.ID department
  /\ Registration.Year r = submit_Year submit
  /\ Registration.Month r = submit_Month submit
  /\ Registration.Day r = submit_Day submit
  /\ Registration.HalfDay r = submit_HalfDay submit.

(** No component of the request's tuple is a zero value. *)
Definition nonzeroKey (submit : RegistrationSubmitJSON)
    (department : Department.t) (patient : Patient.t) : Prop :=
  Patient.ID patient <> 0 /\ Department.ID department <> 0
  /\ submit_Year submit <> 0
  /\ submit_Month submit <> 0
  /\ submit_Day submit <> 0
  /\ submit_HalfDay submit <> "".

(** The load the specification assigns to doctor [k] for a slot: the
    doctor's own bookings on that date and period that are not
    terminated. *)
Definition activeLoad (k : Z) (submit : RegistrationSubmitJSON)
    (rs : list Registration.t) : Z :=
  gorm.Count
    (fun r =>
       (Registration.DoctorID r =? k)
       && (Registration.Year r =? submit_Year submit)
       && (Registration.Month r =? submit_Month submit)
       && (Registration.Day r =? submit_Day submit)
       && String.eqb (Registration.HalfDay r) (submit_HalfDay submit)
       && negb (String.eqb (Registration.Status r) terminated))
    rs.

(** [w1] is [w], or [w] after one statement on the milestone table. *)
Definition milestonesOnly (w w1 : World) : Prop :=
  w1 = w
  \/ exists ms,
       w1 = mkWorld (DB.set_mileStones ms (db w)) (registrationMutex w)
              (writes w ++ [mkWrite MileStones (registrationMutex w)]).

Section Notions.

Context {ext : Externals}.

(** The request has a well-formed body and its department and patient
    are on file: it passes every step before the duplicate check. *)
Definition resolves (c : Context) (w : World)
    (submit : RegistrationSubmitJSON) (department : Department.t)
    (patient : Patient.t) : Prop :=
  body c = Some submit
  /\ validateHalfDay (submit_HalfDay submit) = true
  /\ gorm.First (fun x => Department.ID x =? submit_DepartmentID submit)
                (DB.departments (db w)) = Some department
  /\ exists id,
       accountID c = Some id
       /\ gorm.First (fun x => Patient.AccountID x =? id)
                     (DB.patients (db w)) = Some patient.

(** The request [r], served in [w], is an admission into the slot with
    key [i] that went through. *)
Definition admits (i : Z) (r : Request) (w : World) : bool :=
  match r with
  | PostRegistration env c =>
      succeeded (fst (serve (CreateRegistration env c) w))
      && match body c with
         | Some submit =>
             match slotOf submit w with
             | Some s => DepartmentSchedule.ID s =? i
             | None => false
             end
         | None => false
         end
  | _ => false
  end.

(** How many requests of a run are such admissions. *)
Fixpoint admissions (i : Z) (rs : list Request) (w : World) : Z :=
  match rs with
  | [] => 0
  | r :: rest =>
      (if admits i r w then 1 else 0)
      + admissions i rest (snd (serve (handler r) w))
  end.

Definition isAdmission (r : Request) : bool :=
  match r with
  | PostRegistration _ _ => true
  | _ => false
  end.

(** What one call of [CreateRegistration] does to the world, by the
    place where the handler returns. *)
Inductive AdmissionEffect (env : Env) (c : Context) (w : World)
    : Response -> World -> Prop :=
| RejectedEarly r :
    succeeded r = false ->
    AdmissionEffect env c w r w
| RejectedLocked r :
    succeeded r = false ->
    AdmissionEffect env c w r (mkWorld (db w) false (writes w))
| InsertFailed r :
    succeeded r = false ->
    createFails env = true ->
    AdmissionEffect env c w r
      (mkWorld (db w) false (writes w ++ [mkWrite Registrations true]))
| SaveFailed r submit schedule stored :
    succeeded r = false ->
    saveFails env = true ->
    body c = Some submit ->
    slotOf submit w = Some schedule ->
    AdmissionEffect env c w r
      (mkWorld
         (DB.set_registrations (DB.registrations (db w) ++ [stored]) (db w))
         false
         (writes w ++ [mkWrite Registrations true; mkWrite Schedules true]))
| Booked r submit schedule stored :
    succeeded r = true ->
    saveFails env = false ->
    body c = Some submit ->
    slotOf submit w = Some schedule ->
    validateSchedule (now env) schedule = true ->
    DepartmentSchedule.Current schedule < DepartmentSchedule.Capacity schedule ->
    Registration.Status stored = committed ->
    Registration.DoctorID stored
    = Doctor.ID
        (hd Doctor.zero
            (gorm.Find
               (fun x => Doctor.DepartmentID x =? submit_DepartmentID submit)
               (DB.doctors (db w)))) ->
    AdmissionEffect env c w r
      (mkWorld
         (DB.set_schedules
            (gorm.Save DepartmentSchedule.set_ID (insertID env)
               (DepartmentSchedule.set_Current
                  (wrap_int (DepartmentSchedule.Current schedule + 1))
                  schedule)
               (DB.schedules (db w)))
            (DB.set_registrations (DB.registrations (db w) ++ [stored])
                                  (db w)))
         false
         (writes w ++ [mkWrite Registrations true; mkWrite Schedules true])).

End Notions.

(** ** The department handlers *)

Definition StatusNotFound : Z := 404.

(** Modelled from the spec: [DepartmentDetailJSON], declared outside the
    files at hand; the fields are those [GetDepartmentByID] fills in. *)
Record DepartmentDetailJSON := mkDetail {
  detail_ID : Z;
  detail_Name : string;
  detail_Detail : string;
  detail_Doctors : list string;
  detail_Schedules : list DepartmentSchedule.t
}.

Section Departments.

(** How the database, holding the given store, evaluates on a
    department a condition that gorm passes on verbatim. *)
Variable rawDepartment : DB.t -> string -> Department.t -> bool.

(** The two handlers below answer 200 ["ok"] with the value they yield;
    an early [Return] is any other answer. *)
Definition GetAllDepartments (c : Context) : M (list Department.t) :=
  (* get all departments *)
  departments <- query (fun d => gorm.Find (fun _ => true) (DB.departments d)) ;;
  ret departments.

(** The loop over [doctorsAll]: a doctor whose account is on file adds
    the account's last name followed by its first name. *)
Fixpoint doctorNames (doctorsAll : list Doctor.t) (doctors : list string)
    : M (list string) :=
  match doctorsAll with
  | [] => ret doctors
  | doctor :: rest =>
      found <- query (fun d =>
                 gorm.First (fun x => Account.ID x =? Doctor.AccountID doctor)
                            (DB.accounts d)) ;;
      doctorNames rest
        (match found with
         | Some a =>
             doctors ++ [String.append (Account.LastName a) (Account.FirstName a)]
         | None => doctors
         end)
  end.

Definition GetDepartmentByID (c : Context) : M DepartmentDetailJSON :=
  found <- query (fun d =>
             gorm.FirstInline (rawDepartment d) (Param c "departmentID")
                              (DB.departments d)) ;;
  department <- orReturn found
                  (JSON StatusNotFound "error" (Err DepartmentNotFound)) ;;
  schedules <- query (fun d =>
    gorm.Find (fun x => DepartmentSchedule.DepartmentID x =? Department.ID department)
              (DB.schedules d)) ;;
  doctorsAll <- query (fun d =>
    gorm.Find (fun x => Doctor.DepartmentID x =? Department.ID department)
              (DB.doctors d)) ;;
  doctors <- doctorNames doctorsAll [] ;;
  (* wrap the return data *)
  ret (mkDetail (Department.ID department) (Department.Name department)
                (Department.Detail department) doctors schedules).

End Departments.

(** ** Further notions *)

(** The struct of the duplicate query, and of the count query of the
    scan, in [CreateRegistration]. *)
Definition duplicateQuery (submit : RegistrationSubmitJSON)
    (department : Department.t) (patient : Patient.t) : Registration.t :=
  Registration.mk 0 0 (Patient.ID patient) (Department.ID department)
    (submit_Year submit) (submit_Month submit) (submit_Day submit)
    (submit_HalfDay submit) "" "".

Definition countQuery (submit : RegistrationSubmitJSON)
    (department : Department.t) : Registration.t :=
  Registration.mk 0 0 0 (Department.ID department)
    (submit_Year submit) (submit_Month submit) (submit_Day submit)
    (submit_HalfDay submit) "" "".

(** The doctors of a department, as the handler's query yields them. *)
Definition departmentDoctors (department : Department.t) (w : World)
    : list Doctor.t :=
  gorm.Find (fun x => Doctor.DepartmentID x =? Department.ID department)
            (DB.doctors (db w)).

(** The booking [CreateRegistration] stores for a request. *)
Definition newBooking (env : Env) (submit : RegistrationSubmitJSON)
    (department : Department.t) (patient : Patient.t) (doctor : Doctor.t)
    : Registration.t :=
  Registration.mk (insertID env) (Doctor.ID doctor) (Patient.ID patient)
    (Department.ID department) (submit_Year submit) (submit_Month submit)
    (submit_Day submit) (submit_HalfDay submit) committed "".

(** The milestone [CreateMileStoneByDoctor] stores for a request. *)
Definition newMileStone (env : Env) (k : Z) (c : Context) : MileStone.t :=
  MileStone.mk (insertID env) k (QueryParam c "activity") false.

(** The name [CreateRegistration] reports for the account stored under
    key [k]: last name, then first name; empty when there is no such
    account. *)
Definition accountName (k : Z) (w : World) : string :=
  let a := orZero (gorm.First (fun x => Account.ID x =? k) (DB.accounts (db w))) in
  String.append (Account.LastName a) (Account.FirstName a).

(** The payload of a successful [CreateRegistration]: the patient's name
    is read from the account stored under the patient's key, the
    doctor's from the account of the doctor stored under the assigned
    key. *)
Definition successPayload (env : Env) (submit : RegistrationSubmitJSON)
    (department : Department.t) (patient : Patient.t) (doctor : Doctor.t)
    (w : World) : RegistrationSuccessJSON :=
  mkSuccess (insertID env) (Department.Name department)
    (accountName
       (Doctor.AccountID
          (orZero (gorm.First (fun x => Doctor.ID x =? Doctor.ID doctor)
                              (DB.doctors (db w))))) w)
    (accountName (Patient.ID patient) w)
    (submit_Year submit) (submit_Month submit) (submit_Day submit)
    (submit_HalfDay submit).

(** The world after [CreateRegistration] stored [stored] and saved the
    slot [schedule] with one more registration. *)
Definition admittedWorld (env : Env) (schedule : DepartmentSchedule.t)
    (stored : Registration.t) (w : World) : World :=
  mkWorld
    (DB.set_schedules
       (gorm.Save DepartmentSchedule.set_ID (insertID env)
          (DepartmentSchedule.set_Current
             (wrap_int (DepartmentSchedule.Current schedule + 1)) schedule)
          (DB.schedules (db w)))
       (DB.set_registrations (DB.registrations (db w) ++ [stored]) (db w)))
    false
    (writes w ++ [mkWrite Registrations true; mkWrite Schedules true]).

(** The names [GetDepartmentByID] reports for a list of doctors: for each
    doctor with an account on file, in order, the account's last name
    followed by its first name. *)
Definition namesOf (ds : list Doctor.t) (w : World) : list string :=
  flat_map
    (fun doctor =>
       match gorm.First (fun x => Account.ID x =? Doctor.AccountID doctor)
                        (DB.accounts (db w)) with
       | Some a => [String.append (Account.LastName a) (Account.FirstName a)]
       | None => []
       end)
    ds.

Section AccessNotions.

Context {ext : Externals}.

(** The booking the milestone check of [DoctorAccessToMileStone] ends up
    comparing the caller with: the booking stored under the
    [RegistrationID] of the milestone the path names, zero values
    standing in for rows that are not found. *)
Definition checkedBooking (c : Context) (w : World) : Registration.t :=
  orZero
    (storedRegistration
       (MileStone.RegistrationID
          (orZero (gorm.FirstInline (rawMileStone (db w)) (Param c "mileStoneID")
                                    (DB.mileStones (db w)))))
       w).

(** The world after the delete statement of [DeleteMileStoneByDoctor]. *)
Definition afterDelete (c : Context) (w : World) : World :=
  mkWorld
    (DB.set_mileStones
       (gorm.DeleteInline (rawMileStone (db w)) (Param c "mileStoneID")
                          (DB.mileStones (db w)))
       (db w))
    (registrationMutex w)
    (writes w ++ [mkWrite MileStones (registrationMutex w)]).

End AccessNotions.

Section FurtherNotions.

Context {ext : Externals}.

(** The request passes every step up to and including the duplicate
    check: it resolves, and every booking the duplicate query yields is
    terminated. *)
Definition clearsDuplicates (c : Context) (w : World)
    (submit : RegistrationSubmitJSON) (department : Department.t)
    (patient : Patient.t) : Prop :=
  resolves c w submit department patient
  /\ forall r,
       In r (DB.registrations (db w)) ->
       gorm.whereRegistration (duplicateQuery submit department patient) r = true ->
       Registration.Status r = terminated.

(** The request reaches the assignment of a doctor: it clears the
    duplicate check and names a valid slot with room left. *)
Definition reachesAssignment (env : Env) (c : Context) (w : World)
    (submit : RegistrationSubmitJSON) (department : Department.t)
    (patient : Patient.t) (schedule : DepartmentSchedule.t) : Prop :=
  clearsDuplicates c w submit department patient
  /\ slotOf submit w = Some schedule
  /\ validateSchedule (now env) schedule = true
  /\ DepartmentSchedule.Current schedule < DepartmentSchedule.Capacity schedule.

End FurtherNotions.

(** ** Further sample data *)

Definition env1 : Env := mkEnv 1 false false 20240420.
Definition env2 : Env := mkEnv 2 false false 20240420.

(** The sample department without doctors, its slot empty. *)
Definition emptyWard : World :=
  mkWorld
    (DB.mk [Account.mk 1 "Ann" "Abel"] [cardiology] [] [Patient.mk 1 1] []
           [sampleSlot 0] [])
    false [].

(** A request by the patient of account 1 with the given form. *)
Definition formOf (submit : RegistrationSubmitJSON) : Context :=
  mkContext [] [] (Some submit) (Some 1).

(** A new milestone for booking 1. *)
Definition note : Context :=
  mkContext [] [("registrationID", "1"); ("activity", "blood test")] None None.

(** A look at booking 1 by the caller whose ids read [who]. *)
Definition viewAs (who : string) : Context :=
  mkContext [("registrationID", "1"); ("RegistrationID", "1");
             ("PatientID", who); ("DoctorID", who)] [] None None.

Definition departmentOne : Context :=
  mkContext [("departmentID", "1")] [] None None.

(** ** Bookings stored for a slot *)









(** ** Properties *)

Ltac unfold_handler :=
  unfold serve, bind, ret, Return, orReturn, query, exec, Lock, Unlock in *.

Section Properties.

Context {ext : Externals}.

(** *** The queries *)

Lemma First_sound {A} `{Model A} (p : A -> bool) (rows : list A) (x : A) :
  gorm.First p rows = Some x -> In x rows /\ p x = true.
Proof.
  revert x. induction rows as [|r rows IH]; intros x; cbn; [discriminate|].
  destruct (p r) eqn:Hp.
  - destruct (gorm.First p rows) as [r'|].
    + destruct (pk r' <? pk r); intros [= <-].
      * destruct (IH r' eq_refl); auto.
      * auto.
    + intros [= <-]. auto.
  - intros Hx. destruct (IH x Hx). auto.
Qed.

Lemma First_complete {A} `{Model A} (p : A -> bool) (rows : list A) (x : A) :
  In x rows -> p x = true -> gorm.First p rows <> None.
Proof.
  induction rows as [|r rows IH]; cbn; [tauto|].
  intros [-> | Hin] Hp.
  - rewrite Hp. destruct (gorm.First p rows) as [r'|]; [|discriminate].
    destruct (pk r' <? pk x); discriminate.
  - destruct (p r); [|auto].
    destruct (gorm.First p rows) as [r'|]; [|exfalso; eapply IH; eauto].
    destruct (pk r' <? pk r); discriminate.
Qed.

(** Once the running minimum is no larger than the count, which is the
    same for every doctor, the scan changes nothing more. *)
Lemma scanDoctors_settled registration ds i acc w :
  fst acc <= gorm.Count (gorm.whereRegistration registration)
                        (DB.registrations (db w)) ->
  scanDoctors registration ds i acc w = (inr acc, w).
Proof.
  revert i. induction ds as [|d ds IH]; intros i Hle; cbn; [reflexivity|].
  unfold bind, query.
  destruct (Z.gtb_spec (fst acc)
              (gorm.Count (gorm.whereRegistration registration)
                          (DB.registrations (db w)))); [lia|].
  apply IH. assumption.
Qed.

(** So the scan is decided at the first doctor. *)
Lemma scanDoctors_head registration d ds i acc w :
  scanDoctors registration (d :: ds) i acc w
  = (inr (if fst acc >? gorm.Count (gorm.whereRegistration registration)
                                   (DB.registrations (db w))
          then (gorm.Count (gorm.whereRegistration registration)
                           (DB.registrations (db w)), i)
          else acc), w).
Proof.
  cbn. unfold bind, query.
  apply scanDoctors_settled.
  destruct (Z.gtb_spec (fst acc)
              (gorm.Count (gorm.whereRegistration registration)
                          (DB.registrations (db w)))); cbn; lia.
Qed.

(** *** The paths of [CreateRegistration] *)

Lemma CreateRegistration_effect (env : Env) (c : Context) (w : World) :
  AdmissionEffect env c w (fst (serve (CreateRegistration env c) w))
                          (snd (serve (CreateRegistration env c) w)).
Proof.
  unfold CreateRegistration. unfold_handler. cbn.
  destruct (body c) as [submit|] eqn:Hbody; cbn;
    [|apply RejectedEarly; reflexivity].
  destruct (validateHalfDay _); cbn; [|apply RejectedEarly; reflexivity].
  destruct (gorm.First _ (DB.departments _)) as [department|] eqn:Hdep; cbn;
    [|apply RejectedEarly; reflexivity].
  apply First_sound in Hdep. destruct Hdep as [_ Hdep].
  apply Z.eqb_eq in Hdep.
  destruct (accountID c) as [id|]; cbn; [|apply RejectedEarly; reflexivity].
  destruct (gorm.First _ (DB.patients _)) as [patient|]; cbn;
    [|apply RejectedEarly; reflexivity].
  destruct (existsb _ _); cbn; [apply RejectedEarly; reflexivity|].
  rewrite Hdep.
  destruct (gorm.First _ (DB.schedules _)) as [schedule|] eqn:Hslot; cbn;
    [|apply RejectedLocked; reflexivity].
  destruct (validateSchedule (now env) schedule) eqn:Hvalid; cbn;
    [|apply RejectedLocked; reflexivity].
  destruct (Z.geb_spec (DepartmentSchedule.Current schedule)
                       (DepartmentSchedule.Capacity schedule)); cbn;
    [apply RejectedLocked; reflexivity|].
  destruct (gorm.Find _ (DB.doctors _)) as [|doctor rest] eqn:Hdoctors;
    [cbn; apply RejectedLocked; reflexivity|].
  rewrite scanDoctors_head. cbn [fst snd db].
  destruct (maxInt64 >? _); cbn; [|apply RejectedLocked; reflexivity].
  unfold CreateRegistrationRow, SaveSchedule. unfold_handler.
  destruct (createFails env) eqn:Hcreate; cbn;
    [apply InsertFailed; auto|].
  destruct (saveFails env) eqn:Hsave; cbn.
  - rewrite <- app_assoc. cbn.
    eapply SaveFailed; eauto.
  - rewrite <- app_assoc. cbn.
    eapply (Booked env c w _ submit schedule); eauto.
    cbn. rewrite Hdoctors. reflexivity.
Qed.

(** *** The other handlers *)

Lemma access_reads_only (h : Context -> M bool) (c : Context) (w : World) :
  h = DoctorAccessToMileStone \/ h = DoctorAccessToRegistration
    \/ h = PatientAccessToRegistration ->
  exists b, h c w = (inr b, w).
Proof.
  intros [-> | [-> | ->]];
    unfold DoctorAccessToMileStone, DoctorAccessToRegistration,
           PatientAccessToRegistration;
    unfold_handler; cbn;
    match goal with |- context [if ?b then _ else _] => destruct b end;
    eauto.
Qed.

Lemma GetRegistrationByPatient_world (c : Context) (w : World) :
  snd (serve (GetRegistrationByPatient c) w) = w.
Proof.
  unfold GetRegistrationByPatient.
  destruct (access_reads_only PatientAccessToRegistration c w) as [b Hb];
    [auto|].
  unfold serve, bind at 1. rewrite Hb.
  destruct b; reflexivity.
Qed.

Lemma GetRegistrationByDoctor_world (c : Context) (w : World) :
  snd (serve (GetRegistrationByDoctor c) w) = w.
Proof.
  unfold GetRegistrationByDoctor.
  destruct (access_reads_only DoctorAccessToRegistration c w) as [b Hb];
    [auto|].
  unfold serve, bind at 1. rewrite Hb.
  destruct b; reflexivity.
Qed.

Lemma UpdateRegistrationStatus_world (c : Context) (w : World) :
  snd (serve (UpdateRegistrationStatus c) w) = w.
Proof.
  unfold UpdateRegistrationStatus. unfold_handler.
  destruct (strconv.ParseUint _); cbn; [|reflexivity].
  destruct (gorm.First _ _); cbn; [|reflexivity].
  destruct (String.eqb _ terminated); cbn; [|reflexivity].
  destruct (String.eqb _ ""); reflexivity.
Qed.

Lemma UpdateMileStoneByDoctor_world (c : Context) (w : World) :
  snd (serve (UpdateMileStoneByDoctor c) w) = w.
Proof.
  unfold UpdateMileStoneByDoctor.
  destruct (access_reads_only DoctorAccessToMileStone c w) as [b Hb]; [auto|].
  unfold serve, bind at 1. rewrite Hb.
  destruct b; unfold_handler; cbn; [reflexivity|].
  destruct (strconv.ParseBool _); reflexivity.
Qed.

Lemma CreateMileStoneByDoctor_effect (env : Env) (c : Context) (w : World) :
  milestonesOnly w (snd (serve (CreateMileStoneByDoctor env c) w)).
Proof.
  unfold CreateMileStoneByDoctor, CreateMileStoneRow. unfold_handler.
  destruct (strconv.ParseUint _); cbn; [|left; reflexivity].
  destruct (createFails env); cbn; right.
  - exists (DB.mileStones (db w)). destruct w as [[] ? ?]; reflexivity.
  - eexists. reflexivity.
Qed.

Lemma DeleteMileStoneByDoctor_effect (c : Context) (w : World) :
  milestonesOnly w (snd (serve (DeleteMileStoneByDoctor c) w)).
Proof.
  unfold DeleteMileStoneByDoctor.
  destruct (access_reads_only DoctorAccessToMileStone c w) as [b Hb]; [auto|].
  unfold serve, bind at 1. rewrite Hb.
  destruct b; unfold_handler; cbn; [left; reflexivity|].
  right. eexists. reflexivity.
Qed.

Lemma handler_frame (r : Request) (w : World) :
  isAdmission r = false ->
  milestonesOnly w (snd (serve (handler r) w)).
Proof.
  destruct r; cbn [isAdmission handler]; intros H; try discriminate.
  - left. apply GetRegistrationByPatient_world.
  - left. apply GetRegistrationByDoctor_world.
  - left. apply UpdateRegistrationStatus_world.
  - apply CreateMileStoneByDoctor_effect.
  - left. apply UpdateMileStoneByDoctor_world.
  - apply DeleteMileStoneByDoctor_effect.
Qed.

(** *** Occupancy and capacity *)

Lemma wrap_int_small (z : Z) :
  minInt64 <= z <= maxInt64 -> wrap_int z = z.
Proof.
  unfold wrap_int, minInt64, maxInt64. intros Hz.
  rewrite Z.mod_small; lia.
Qed.

Lemma Save_Forall (P : DepartmentSchedule.t -> Prop) n row rows :
  Forall P rows -> (forall k, P (DepartmentSchedule.set_ID k row)) -> P row ->
  Forall P (gorm.Save DepartmentSchedule.set_ID n row rows).
Proof.
  intros Hrows Hkey Hrow. unfold gorm.Save.
  destruct (pk row =? 0).
  - apply Forall_app. split; [assumption|]. constructor; auto.
  - destruct (existsb _ rows).
    + apply Forall_map. eapply Forall_impl; [|exact Hrows].
      intros r Hr. destruct (pk r =? pk row); assumption.
    + apply Forall_app. split; [assumption|]. constructor; auto.
Qed.

(** On a keyed table, saving a row of the table with a new occupancy
    overwrites that row and nothing else. *)
Lemma Save_keyed n s v rows :
  keyed rows -> In s rows ->
  gorm.Save DepartmentSchedule.set_ID n (DepartmentSchedule.set_Current v s) rows
  = map (fun r => if DepartmentSchedule.ID r =? DepartmentSchedule.ID s
                  then DepartmentSchedule.set_Current v s else r) rows.
Proof.
  intros [_ Hnz] Hin. unfold gorm.Save. cbn.
  destruct (Z.eqb_spec (DepartmentSchedule.ID s) 0) as [E|_].
  - exfalso. apply Hnz. rewrite <- E. apply in_map. assumption.
  - replace (existsb _ rows) with true; [reflexivity|].
    symmetry. apply existsb_exists. exists s. split; [assumption|].
    apply Z.eqb_refl.
Qed.

Lemma keyed_unique rows s t :
  keyed rows -> In s rows -> In t rows ->
  DepartmentSchedule.ID t = DepartmentSchedule.ID s -> t = s.
Proof.
  intros [Hnd _]. induction rows as [|r rows IH]; cbn; [tauto|].
  inversion Hnd as [|? ? Hnotin Hnd']; subst.
  intros [-> | Hs] [-> | Ht] E; auto.
  - exfalso. apply Hnotin. rewrite <- E. apply in_map. assumption.
  - exfalso. apply Hnotin. rewrite E. apply in_map. assumption.
Qed.

Lemma slot_ok_incremented s :
  slot_ok s ->
  DepartmentSchedule.Current s < DepartmentSchedule.Capacity s ->
  wrap_int (DepartmentSchedule.Current s + 1) = DepartmentSchedule.Current s + 1
  /\ forall k,
       slot_ok (DepartmentSchedule.set_ID k
                  (DepartmentSchedule.set_Current
                     (wrap_int (DepartmentSchedule.Current s + 1)) s)).
Proof.
  intros (Hlo & Hle & Hhi) Hlt.
  assert (W : wrap_int (DepartmentSchedule.Current s + 1)
              = DepartmentSchedule.Current s + 1)
    by (apply wrap_int_small; lia).
  split; [exact W|].
  intros k. unfold slot_ok. cbn. rewrite W. lia.
Qed.

(** One request keeps every slot within its capacity, leaves the mutex
    free and writes to the schedule table only while holding it. *)
Lemma step_invariant (r : Request) (w : World) :
  Forall slot_ok (DB.schedules (db w)) ->
  registrationMutex w = false ->
  Forall slot_ok (DB.schedules (db (snd (serve (handler r) w))))
  /\ registrationMutex (snd (serve (handler r) w)) = false
  /\ exists new,
       writes (snd (serve (handler r) w)) = writes w ++ new
       /\ Forall (fun x => guarded x = true) new.
Proof.
  intros Hok Hfree.
  destruct (isAdmission r) eqn:Hadm.
  - destruct r; try discriminate. cbn [handler].
    pose proof (CreateRegistration_effect env c w) as E.
    destruct (serve (CreateRegistration env c) w) as [r w1]. cbn in E |- *.
    inversion E; subst; cbn.
    + repeat split; auto. exists []. rewrite app_nil_r. auto.
    + repeat split; auto. exists []. rewrite app_nil_r. auto.
    + repeat split; auto. eexists. split; [reflexivity|].
      repeat constructor.
    + repeat split; auto. eexists. split; [reflexivity|].
      repeat constructor.
    + match goal with H : slotOf _ _ = Some _ |- _ =>
        apply First_sound in H; destruct H as [Hin _] end.
      assert (Hs : slot_ok schedule)
        by (eapply Forall_forall; [exact Hok | exact Hin]).
      destruct (slot_ok_incremented schedule Hs ltac:(assumption)) as [_ Hk].
      repeat split.
      * apply Save_Forall; auto.
        specialize (Hk (DepartmentSchedule.ID schedule)).
        destruct schedule; exact Hk.
      * eexists. split; [reflexivity|]. repeat constructor.
  - destruct (handler_frame r w Hadm) as [-> | [ms ->]]; cbn.
    + repeat split; auto. exists []. rewrite app_nil_r. auto.
    + repeat split; auto. eexists. split; [reflexivity|].
      repeat constructor.
Qed.

(** On a keyed table one request raises the occupancy of a slot by
    one when it is an admission into that slot that went through, and
    leaves it as it was otherwise; capacities and keys stay. *)
Lemma step_count (r : Request) (w : World) :
  keyed (DB.schedules (db w)) ->
  Forall slot_ok (DB.schedules (db w)) ->
  keyed (DB.schedules (db (snd (serve (handler r) w))))
  /\ forall s, In s (DB.schedules (db w)) ->
       exists s1,
         In s1 (DB.schedules (db (snd (serve (handler r) w))))
         /\ DepartmentSchedule.ID s1 = DepartmentSchedule.ID s
         /\ DepartmentSchedule.Capacity s1 = DepartmentSchedule.Capacity s
         /\ DepartmentSchedule.Current s1
            = DepartmentSchedule.Current s
              + (if admits (DepartmentSchedule.ID s) r w then 1 else 0).
Proof.
  intros Hkeyed Hok.
  assert (Same : forall s : DepartmentSchedule.t,
             In s (DB.schedules (db w)) ->
             exists s1, In s1 (DB.schedules (db w))
               /\ DepartmentSchedule.ID s1 = DepartmentSchedule.ID s
               /\ DepartmentSchedule.Capacity s1 = DepartmentSchedule.Capacity s
               /\ DepartmentSchedule.Current s1 = DepartmentSchedule.Current s + 0)
    by (intros s Hs; exists s; repeat split; auto; lia).
  destruct (isAdmission r) eqn:Hadm.
  - destruct r; try discriminate. cbn [handler admits].
    pose proof (CreateRegistration_effect env c w) as E.
    destruct (serve (CreateRegistration env c) w) as [r w1]. cbn in E |- *.
    inversion E; subst; cbn;
      try (match goal with H : succeeded r = false |- _ => rewrite H end;
           cbn; split; assumption).
    match goal with H : succeeded r = true |- _ => rewrite H end.
    match goal with H : body c = Some _ |- _ => rewrite H end.
    match goal with H : slotOf _ _ = Some _ |- _ =>
      rewrite H; apply First_sound in H; destruct H as [Hin _] end.
    assert (Hs : slot_ok schedule)
      by (eapply Forall_forall; [exact Hok | exact Hin]).
    destruct (slot_ok_incremented schedule Hs ltac:(assumption)) as [W _].
    rewrite Save_keyed by assumption. rewrite W. cbn.
    split.
    + unfold keyed. rewrite map_map.
      erewrite map_ext; [exact Hkeyed|].
      intros t. cbn.
      destruct (Z.eqb_spec (DepartmentSchedule.ID t)
                           (DepartmentSchedule.ID schedule)); cbn; congruence.
    + intros s Hin_s.
      exists (if DepartmentSchedule.ID s =? DepartmentSchedule.ID schedule
              then DepartmentSchedule.set_Current
                     (DepartmentSchedule.Current schedule + 1) schedule
              else s).
      split.
      * apply (in_map
                 (fun t => if DepartmentSchedule.ID t
                              =? DepartmentSchedule.ID schedule
                           then DepartmentSchedule.set_Current
                                  (DepartmentSchedule.Current schedule + 1)
                                  schedule
                           else t)). exact Hin_s.
      * rewrite (Z.eqb_sym (DepartmentSchedule.ID schedule)).
        destruct (Z.eqb_spec (DepartmentSchedule.ID s)
                             (DepartmentSchedule.ID schedule)) as [Ee|Ne].
        -- assert (s = schedule) by (eapply keyed_unique; eauto).
           subst s. cbn. repeat split; lia.
        -- repeat split; lia.
  - assert (Hno : forall i, admits i r w = false)
      by (intros i; destruct r; auto; discriminate).
    destruct (handler_frame r w Hadm) as [-> | [ms ->]]; cbn;
      (split; [assumption|]); intros s Hs; rewrite Hno; auto.
Qed.

Lemma run_invariant (rs : list Request) :
  forall w,
    Forall slot_ok (DB.schedules (db w)) ->
    registrationMutex w = false ->
    Forall slot_ok (DB.schedules (db (run rs w)))
    /\ registrationMutex (run rs w) = false
    /\ exists new,
         writes (run rs w) = writes w ++ new
         /\ Forall (fun x => guarded x = true) new.
Proof.
  induction rs as [|r rs IH]; intros w Hok Hfree; cbn [run].
  - repeat split; auto. exists []. rewrite app_nil_r. auto.
  - destruct (step_invariant r w Hok Hfree) as (Hok1 & Hfree1 & new1 & E1 & G1).
    destruct (IH _ Hok1 Hfree1) as (Hok2 & Hfree2 & new2 & E2 & G2).
    repeat split; auto.
    exists (new1 ++ new2). split.
    + rewrite E2, E1, app_assoc. reflexivity.
    + apply Forall_app. auto.
Qed.

Lemma run_count (rs : list Request) :
  forall w,
    keyed (DB.schedules (db w)) ->
    Forall slot_ok (DB.schedules (db w)) ->
    registrationMutex w = false ->
    forall s, In s (DB.schedules (db w)) ->
      exists s1,
        In s1 (DB.schedules (db (run rs w)))
        /\ DepartmentSchedule.ID s1 = DepartmentSchedule.ID s
        /\ DepartmentSchedule.Capacity s1 = DepartmentSchedule.Capacity s
        /\ DepartmentSchedule.Current s1
           = DepartmentSchedule.Current s
             + admissions (DepartmentSchedule.ID s) rs w.
Proof.
  induction rs as [|r rs IH]; intros w Hkeyed Hok Hfree s Hin;
    cbn [run admissions].
  - exists s. repeat split; auto. lia.
  - destruct (step_count r w Hkeyed Hok) as [Hkeyed1 Hstep].
    destruct (step_invariant r w Hok Hfree) as (Hok1 & Hfree1 & _).
    destruct (Hstep s Hin) as (s1 & Hin1 & Eid & Ecap & Ecur).
    destruct (IH _ Hkeyed1 Hok1 Hfree1 s1 Hin1) as (s2 & Hin2 & Eid2 & Ecap2 & Ecur2).
    exists s2. rewrite Eid in Ecur2. repeat split; try congruence. lia.
Qed.

(** An admission that goes through stores exactly one new booking, with
    status [committed]. *)
Lemma admitted_stores_one (env : Env) (c : Context) (w : World) :
  succeeded (fst (serve (CreateRegistration env c) w)) = true ->
  exists stored,
    DB.registrations (db (snd (serve (CreateRegistration env c) w)))
    = DB.registrations (db w) ++ [stored]
    /\ Registration.Status stored = committed.
Proof.
  pose proof (CreateRegistration_effect env c w) as E.
  destruct (serve (CreateRegistration env c) w) as [r w1]. cbn in E |- *.
  intros Hok. inversion E; subst; try congruence.
  exists stored. cbn. auto.
Qed.

(** The part of C1 on occupancy, admissions and the guard. Over every
    run of requests that starts with each slot's
    occupancy within its capacity and the mutex free: each slot's
    occupancy stays within its capacity; on a table with proper keys the
    occupancy of a slot plus the number of admissions into it that went
    through never exceeds its capacity; every write to the schedule
    table is made while holding [registrationMutex], which is free again
    after each request; no request other than the creation of a
    registration changes the schedule table; and an admission that goes
    through stores exactly one booking, which is not terminated. *)
Theorem capacity_invariant (rs : list Request) (w : World) :
  Forall slot_ok (DB.schedules (db w)) ->
  registrationMutex w = false ->
  (forall s, In s (DB.schedules (db (run rs w))) ->
     DepartmentSchedule.Current s <= DepartmentSchedule.Capacity s)
  /\ (keyed (DB.schedules (db w)) ->
      forall s, In s (DB.schedules (db w)) ->
        DepartmentSchedule.Current s
        + admissions (DepartmentSchedule.ID s) rs w
        <= DepartmentSchedule.Capacity s)
  /\ (exists new,
        writes (run rs w) = writes w ++ new
        /\ Forall (fun x => guarded x = true) new)
  /\ registrationMutex (run rs w) = false
  /\ (forall r w0,
        isAdmission r = false ->
        DB.schedules (db (snd (serve (handler r) w0))) = DB.schedules (db w0))
  /\ (forall env c w0,
        succeeded (fst (serve (CreateRegistration env c) w0)) = true ->
        exists stored,
          DB.registrations (db (snd (serve (CreateRegistration env c) w0)))
          = DB.registrations (db w0) ++ [stored]
          /\ Registration.Status stored <> terminated).
Proof.
  intros Hok Hfree.
  destruct (run_invariant rs w Hok Hfree) as (Hok' & Hfree' & Hwrites).
  split; [|split; [|split; [exact Hwrites|split; [exact Hfree'|split]]]].
  - intros s Hs. rewrite Forall_forall in Hok'. apply (Hok' s Hs).
  - intros Hkeyed s Hs.
    destruct (run_count rs w Hkeyed Hok Hfree s Hs) as (s1 & Hin1 & _ & Ecap & Ecur).
    rewrite Forall_forall in Hok'.
    destruct (Hok' s1 Hin1) as (_ & Hle & _). lia.
  - intros r w0 Hr.
    destruct (handler_frame r w0 Hr) as [-> | [ms ->]]; reflexivity.
  - intros env c w0 Hgo.
    destruct (admitted_stores_one env c w0 Hgo) as (stored & Hregs & Hstatus).
    exists stored. split; [exact Hregs|].
    rewrite Hstatus. discriminate.
Qed.

(** *** Failed admissions *)

(** C3, as the code has it. An admission that is not answered with 200
    leaves every schedule row, hence every occupancy, as it was; and
    when the save of the schedule does not fail, it leaves the whole
    store as it was, the bookings included. *)
Theorem failed_admission_frame (env : Env) (c : Context) (w : World) :
  succeeded (fst (serve (CreateRegistration env c) w)) = false ->
  DB.schedules (db (snd (serve (CreateRegistration env c) w)))
  = DB.schedules (db w)
  /\ (saveFails env = false ->
      db (snd (serve (CreateRegistration env c) w)) = db w).
Proof.
  pose proof (CreateRegistration_effect env c w) as E.
  destruct (serve (CreateRegistration env c) w) as [r w1]. cbn in E |- *.
  intros Hfail.
  inversion E; subst; cbn; try (split; [reflexivity | auto]; fail).
  - split; [reflexivity | congruence].
  - congruence.
Qed.

(** *** The duplicate check *)

Lemma condZ_same (v : Z) : gorm.condZ v v = true.
Proof. unfold gorm.condZ. rewrite Z.eqb_refl. apply orb_true_r. Qed.

Lemma condS_same (v : string) : gorm.condS v v = true.
Proof. unfold gorm.condS. rewrite String.eqb_refl. apply orb_true_r. Qed.

Lemma condZ_proper (q v : Z) : q <> 0 -> gorm.condZ q v = true -> v = q.
Proof.
  unfold gorm.condZ. intros Hq H.
  apply orb_true_iff in H. destruct H as [H | H]; apply Z.eqb_eq in H; congruence.
Qed.

Lemma condS_proper (q v : string) : q <> "" -> gorm.condS q v = true -> v = q.
Proof.
  unfold gorm.condS. intros Hq H.
  apply orb_true_iff in H.
  destruct H as [H | H]; apply String.eqb_eq in H; congruence.
Qed.

(** The rows the duplicate query yields include every booking for the
    same patient, department, date and period. *)
Lemma duplicate_query_complete submit department patient r :
  sameBooking submit department patient r ->
  gorm.whereRegistration
    (Registration.mk 0 0 (Patient.ID patient) (Department.ID department)
       (submit_Year submit) (submit_Month submit) (submit_Day submit)
       (submit_HalfDay submit) "" "") r = true.
Proof.
  intros (E1 & E2 & E3 & E4 & E5 & E6).
  unfold gorm.whereRegistration. cbn.
  rewrite <- E1, <- E2, <- E3, <- E4, <- E5, <- E6.
  rewrite !condZ_same, !condS_same. reflexivity.
Qed.

(** When no component is a zero value they are exactly those bookings. *)
Lemma duplicate_query_sound submit department patient r :
  nonzeroKey submit department patient ->
  gorm.whereRegistration
    (Registration.mk 0 0 (Patient.ID patient) (Department.ID department)
       (submit_Year submit) (submit_Month submit) (submit_Day submit)
       (submit_HalfDay submit) "" "") r = true ->
  sameBooking submit department patient r.
Proof.
  intros (Hp & Hd & Hy & Hm & Hday & Hh).
  unfold gorm.whereRegistration. cbn. rewrite !andb_true_iff.
  intros (((((((Ep & Ed) & Ey) & Em) & Eday) & Eh) & _) & _).
  unfold sameBooking.
  repeat split;
    first [ apply condZ_proper; assumption
          | apply condS_proper; assumption ].
Qed.

(** C6, as the code has it. Let a request pass the steps before the
    duplicate check. If a stored booking for the same patient,
    department, date and period is not terminated, the request is
    answered with [DuplicateRegistration] and the world stays as it was.
    If no component of the tuple is a zero value and every stored
    booking for that tuple is terminated, the request is not answered
    with [DuplicateRegistration]. *)
Theorem duplicate_check (env : Env) (c : Context) (w : World)
    (submit : RegistrationSubmitJSON) (department : Department.t)
    (patient : Patient.t) :
  resolves c w submit department patient ->
  (forall r,
      In r (DB.registrations (db w)) ->
      sameBooking submit department patient r ->
      Registration.Status r <> terminated ->
      serve (CreateRegistration env c) w
      = (JSON StatusBadRequest "error" (Err DuplicateRegistration), w))
  /\ (nonzeroKey submit department patient ->
      (forall r,
          In r (DB.registrations (db w)) ->
          sameBooking submit department patient r ->
          Registration.Status r = terminated) ->
      fst (serve (CreateRegistration env c) w)
      <> JSON StatusBadRequest "error" (Err DuplicateRegistration)).
Proof.
  intros (Hbody & Hhalf & Hdep & id & Hid & Hpat).
  split.
  - intros r Hin Hsame Hstatus.
    unfold CreateRegistration. unfold_handler. cbn.
    rewrite Hbody. cbn. rewrite Hhalf. cbn. rewrite Hdep. cbn.
    rewrite Hid. cbn. rewrite Hpat. cbn.
    replace (existsb _ _) with true; [reflexivity|].
    symmetry. apply existsb_exists. exists r. split.
    + apply filter_In. split; [assumption|].
      apply duplicate_query_complete. assumption.
    + apply negb_true_iff. apply String.eqb_neq. assumption.
  - intros Hkey Hall.
    unfold CreateRegistration. unfold_handler. cbn.
    rewrite Hbody. cbn. rewrite Hhalf. cbn. rewrite Hdep. cbn.
    rewrite Hid. cbn. rewrite Hpat. cbn.
    destruct (existsb _ _) eqn:Hdup.
    + exfalso. apply existsb_exists in Hdup.
      destruct Hdup as (r & Hin & Hstatus).
      apply filter_In in Hin. destruct Hin as [Hin Hq].
      apply negb_true_iff, String.eqb_neq in Hstatus.
      apply Hstatus, Hall; [assumption|].
      apply duplicate_query_sound; assumption.
    + cbn.
      destruct (gorm.First _ (DB.schedules _)) as [schedule|]; cbn;
        [|discriminate].
      destruct (validateSchedule (now env) schedule); cbn; [|discriminate].
      destruct (_ >=? _); cbn; [discriminate|].
      destruct (gorm.Find _ (DB.doctors _)) as [|doctor rest];
        [cbn; discriminate|].
      rewrite scanDoctors_head. cbn [fst snd db].
      destruct (maxInt64 >? _); cbn; [|discriminate].
      unfold CreateRegistrationRow, SaveSchedule. unfold_handler.
      destruct (createFails env); cbn; [discriminate|].
      destruct (saveFails env); cbn; discriminate.
Qed.


(** *** Status updates and milestone updates *)

(** A lookup by key yields the earliest row with that key. *)
Lemma First_by_key {A} `{Model A} (k : Z) (rows : list A) :
  gorm.First (fun x => pk x =? k) rows = find (fun x => pk x =? k) rows.
Proof.
  induction rows as [|a rows IH]; cbn; [reflexivity|].
  destruct (Z.eqb_spec (pk a) k) as [Ea|_]; [|exact IH].
  rewrite IH. destruct (find _ rows) as [r'|] eqn:Hr; [|reflexivity].
  apply find_some in Hr. destruct Hr as [_ Hr]. apply Z.eqb_eq in Hr.
  replace (pk r' <? pk a) with false; [reflexivity|].
  symmetry. apply Z.ltb_ge. lia.
Qed.

Lemma find_app_found {A} (p : A -> bool) (l l' : list A) (x : A) :
  find p l = Some x -> find p (l ++ l') = Some x.
Proof.
  induction l as [|a l IH]; cbn; [discriminate|].
  destruct (p a); auto.
Qed.

(** No request changes or removes a stored booking; a request adds at
    most one. *)
Lemma handler_registrations (r : Request) (w : World) :
  exists new,
    DB.registrations (db (snd (serve (handler r) w)))
    = DB.registrations (db w) ++ new.
Proof.
  destruct (isAdmission r) eqn:Hadm.
  - destruct r; try discriminate. cbn [handler].
    pose proof (CreateRegistration_effect env c w) as E.
    destruct (serve (CreateRegistration env c) w) as [r w1]. cbn in E |- *.
    inversion E; subst; cbn;
      first [ exists []; rewrite app_nil_r; reflexivity
            | eexists; reflexivity ].
  - destruct (handler_frame r w Hadm) as [-> | [ms ->]]; cbn;
      exists []; rewrite app_nil_r; reflexivity.
Qed.

Lemma run_keeps_stored (rs : list Request) :
  forall w k r,
    storedRegistration k w = Some r ->
    storedRegistration k (run rs w) = Some r.
Proof.
  induction rs as [|q rs IH]; intros w k r Hr; cbn [run]; [exact Hr|].
  apply IH. unfold storedRegistration in *.
  destruct (handler_registrations q w) as [new ->].
  pose proof (@First_by_key Registration.t _ k) as E.
  cbn [pk Model_Registration] in E.
  rewrite E in *. apply find_app_found. exact Hr.
Qed.

(** C8. A stored booking whose status is [terminated] is the same
    stored row, with the same status, after any run of requests, whatever
    the status updates among them ask for; and a status update leaves the
    whole world as it was. *)
Theorem terminated_is_kept (rs : list Request) (w : World) (k : Z)
    (r : Registration.t) :
  storedRegistration k w = Some r ->
  Registration.Status r = terminated ->
  (exists r',
     storedRegistration k (run rs w) = Some r'
     /\ Registration.Status r' = terminated)
  /\ forall c, snd (serve (UpdateRegistrationStatus c) w) = w.
Proof.
  intros Hstored Hstatus. split.
  - exists r. split; [|exact Hstatus].
    apply run_keeps_stored. exact Hstored.
  - intros c. apply UpdateRegistrationStatus_world.
Qed.

(** C9. [UpdateMileStoneByDoctor] leaves the world as it was, whatever
    it answers: every stored milestone has the activity and the checked
    flag it had before the call. *)
Theorem UpdateMileStoneByDoctor_stores_nothing (c : Context) (w : World) :
  snd (serve (UpdateMileStoneByDoctor c) w) = w
  /\ forall k,
       storedMileStone k (snd (serve (UpdateMileStoneByDoctor c) w))
       = storedMileStone k w.
Proof.
  split; [|intros k]; rewrite UpdateMileStoneByDoctor_world; reflexivity.
Qed.

(** *** Identifiers in path parameters *)

(** C10. A string that [Atoi] rejects is read by [StrToUInt] as zero;
    so each access helper, given such a string as the caller's
    identifier, answers exactly as it does for the identifier ["0"],
    and it always answers. *)
Theorem malformed_id_reads_as_zero (s : string) :
  strconv.Atoi s = None ->
  StrToUInt s = 0
  /\ forall c w,
       (Param c "DoctorID" = s ->
        DoctorAccessToMileStone c w
        = DoctorAccessToMileStone (set_Param "DoctorID" "0" c) w
        /\ DoctorAccessToRegistration c w
           = DoctorAccessToRegistration (set_Param "DoctorID" "0" c) w
        /\ (exists b, DoctorAccessToMileStone c w = (inr b, w))
        /\ (exists b, DoctorAccessToRegistration c w = (inr b, w)))
       /\ (Param c "PatientID" = s ->
           PatientAccessToRegistration c w
           = PatientAccessToRegistration (set_Param "PatientID" "0" c) w
           /\ (exists b, PatientAccessToRegistration c w = (inr b, w))).
Proof.
  intros Hs.
  assert (Hzero : StrToUInt s = 0) by (unfold StrToUInt; rewrite Hs; reflexivity).
  split; [exact Hzero|].
  intros c w. split; intros Hc.
  - repeat split; try (apply access_reads_only; auto);
      unfold DoctorAccessToMileStone, DoctorAccessToRegistration;
      unfold_handler; cbn; rewrite Hc, Hzero; reflexivity.
  - split; try (apply access_reads_only; auto).
    unfold PatientAccessToRegistration.
    unfold_handler; cbn; rewrite Hc, Hzero; reflexivity.
Qed.

(** *** Supporting facts for the divergences *)

(** Whenever an admission goes through, the doctor of the new booking
    is the first doctor the department query yields. *)
Lemma admitted_doctor_is_first (env : Env) (c : Context) (w : World) :
  succeeded (fst (serve (CreateRegistration env c) w)) = true ->
  exists submit stored,
    body c = Some submit
    /\ DB.registrations (db (snd (serve (CreateRegistration env c) w)))
       = DB.registrations (db w) ++ [stored]
    /\ Registration.DoctorID stored
       = Doctor.ID
           (hd Doctor.zero
              (gorm.Find
                 (fun x => Doctor.DepartmentID x =? submit_DepartmentID submit)
                 (DB.doctors (db w)))).
Proof.
  pose proof (CreateRegistration_effect env c w) as E.
  destruct (serve (CreateRegistration env c) w) as [r w1]. cbn in E |- *.
  intros Hok. inversion E; subst; try congruence.
  exists submit, stored. cbn. auto.
Qed.

(** The milestone handlers turn the caller away exactly when the
    access helper answers [true]. *)
Lemma DeleteMileStoneByDoctor_forbidden (c : Context) (w : World) (b : bool) :
  DoctorAccessToMileStone c w = (inr b, w) ->
  fst (serve (DeleteMileStoneByDoctor c) w)
  = if b then JSON StatusForbidden "unauthorized" Nil
    else JSON StatusOK "ok" Nil.
Proof.
  intros Hb. unfold DeleteMileStoneByDoctor.
  unfold serve, bind at 1. rewrite Hb.
  destruct b; reflexivity.
Qed.

(** A termination without a cause is turned away and nothing is
    stored; this half of the rule holds. *)
Lemma termination_without_cause (c : Context) (w : World) (k : Z)
    (r : Registration.t) :
  strconv.ParseUint (QueryParam c "registrationID") = Some k ->
  storedRegistration k w = Some r ->
  QueryParam c "status" = terminated ->
  QueryParam c "terminatedCause" = "" ->
  serve (UpdateRegistrationStatus c) w
  = (JSON StatusBadRequest "ok" (Message "Missing terminated causes"), w).
Proof.
  unfold storedRegistration. intros Hk Hr Hstatus Hcause.
  unfold UpdateRegistrationStatus. unfold_handler.
  rewrite Hk. cbn. rewrite Hr. cbn. rewrite Hstatus, Hcause. reflexivity.
Qed.

End Properties.

(** ** The properties on the sample data *)

Lemma sample_slot_ok (current : Z) :
  0 <= current <= 2 -> Forall slot_ok (DB.schedules (db (sampleWorld [] current))).
Proof.
  intros H. constructor; [|constructor].
  unfold slot_ok, minInt64, maxInt64. cbn. lia.
Defined.

Lemma sample_keyed (rs : list Registration.t) (current : Z) :
  keyed (DB.schedules (db (sampleWorld rs current))).
Proof.
  split; cbn.
  - constructor; [tauto | constructor].
  - intros [H | []]. discriminate.
Defined.

Lemma sample_resolves (rs : list Registration.t) (current a : Z) :
  1 <= a <= 3 ->
  resolves (admission a) (sampleWorld rs current) sampleSubmit cardiology
           (Patient.mk a a).
Proof.
  intros Ha. repeat split; try reflexivity.
  exists a. split; [reflexivity|].
  assert (a = 1 \/ a = 2 \/ a = 3) as [-> | [-> | ->]] by lia; reflexivity.
Defined.

(** The scenario of the capacity-two slot: the first request goes
    through, the repeated one is a duplicate, the third goes through and
    the fourth finds the slot full. *)
Example scenario :
  let w1 := snd (serve (CreateRegistration (mkEnv 1 false false 20240420) (admission 1))
                       (sampleWorld [] 0)) in
  let w2 := snd (serve (CreateRegistration (mkEnv 2 false false 20240420) (admission 2)) w1) in
  succeeded (fst (serve (CreateRegistration (mkEnv 1 false false 20240420) (admission 1))
                        (sampleWorld [] 0))) = true
  /\ DB.schedules (db w1) = [sampleSlot 1]
  /\ serve (CreateRegistration (mkEnv 2 false false 20240420) (admission 1)) w1
     = (JSON StatusBadRequest "error" (Err DuplicateRegistration), w1)
  /\ DB.schedules (db w2) = [sampleSlot 2]
  /\ fst (serve (CreateRegistration (mkEnv 3 false false 20240420) (admission 3)) w2)
     = JSON StatusBadRequest "error" (Err NotEnoughCapacity)
  /\ admissions 1 sampleRun (sampleWorld [] 0) = 2.
Proof. vm_compute. repeat split; reflexivity. Qed.

Lemma capacity_invariant_witness :
  (forall s, In s (DB.schedules (db (run sampleRun (sampleWorld [] 0)))) ->
     DepartmentSchedule.Current s <= DepartmentSchedule.Capacity s)
  /\ 0 + admissions 1 sampleRun (sampleWorld [] 0) <= 2
  /\ registrationMutex (run sampleRun (sampleWorld [] 0)) = false.
Proof.
  destruct (capacity_invariant sampleRun (sampleWorld [] 0)
              (sample_slot_ok 0 ltac:(lia)) eq_refl)
    as (Hocc & Hcount & _ & Hfree & _ & _).
  split; [|split].
  - exact Hocc.
  - exact (Hcount (sample_keyed [] 0) (sampleSlot 0) (or_introl eq_refl)).
  - exact Hfree.
Defined.

(** C2, where the code departs from it. Doctor 1 already has a booking
    in the slot and doctor 2 has none, yet the new booking goes to doctor
    1, the first doctor of the department. *)
Theorem first_doctor_assigned_whatever_the_load :
  let w := sampleWorld [booking1 committed ""] 1 in
  let out := serve (CreateRegistration (mkEnv 2 false false 20240420) (admission 1)) w in
  succeeded (fst out) = true
  /\ storedRegistration 2 (snd out)
     = Some (Registration.mk 2 1 1 1 2024 5 1 morning committed "")
  /\ activeLoad 1 sampleSubmit (DB.registrations (db w)) = 1
  /\ activeLoad 2 sampleSubmit (DB.registrations (db w)) = 0.
Proof. vm_compute. repeat split; reflexivity. Qed.

(** C3 fails where the insert of the booking succeeds and the save of
    the schedule fails: the request is answered with an error and the
    booking is stored all the same. *)
Lemma failed_save_keeps_booking :
  let w := sampleWorld [] 0 in
  let out := serve (CreateRegistration (mkEnv 1 false true 20240420) (admission 1)) w in
  fst out = JSON StatusBadRequest "error" (Err InvalidSchedule)
  /\ succeeded (fst out) = false
  /\ DB.registrations (db (snd out)) <> DB.registrations (db w).
Proof. vm_compute. repeat split; discriminate. Qed.

Lemma failed_admission_frame_witness :
  DB.schedules
    (db (snd (serve (CreateRegistration (mkEnv 1 false false 20240420) (admission 3))
                    (sampleWorld [] 2))))
  = [sampleSlot 2]
  /\ db (snd (serve (CreateRegistration (mkEnv 1 false false 20240420) (admission 3))
                    (sampleWorld [] 2)))
     = sampleDB [] 2.
Proof.
  assert (Hfail : succeeded
                    (fst (serve (CreateRegistration (mkEnv 1 false false 20240420)
                                                    (admission 3))
                                (sampleWorld [] 2))) = false)
    by (vm_compute; reflexivity).
  pose proof (failed_admission_frame (mkEnv 1 false false 20240420) (admission 3)
                (sampleWorld [] 2) Hfail) as [Hs Hdb].
  split; [exact Hs | exact (Hdb eq_refl)].
Defined.

(** C4, where the code departs from it. Milestone 1 belongs to a booking
    of doctor 1. Doctor 2 deletes it and may update it; doctor 1 is
    turned away from both. *)
Theorem milestone_access_is_inverted :
  let w := sampleWorld [booking1 committed ""] 1 in
  let checked := [("checked", "true")] in
  fst (serve (DeleteMileStoneByDoctor (asDoctor "2" "1" [])) w)
  = JSON StatusOK "ok" Nil
  /\ storedMileStone 1 w = Some (MileStone.mk 1 1 "x-ray" false)
  /\ storedMileStone 1 (snd (serve (DeleteMileStoneByDoctor (asDoctor "2" "1" [])) w))
     = None
  /\ fst (serve (DeleteMileStoneByDoctor (asDoctor "1" "1" [])) w)
     = JSON StatusForbidden "unauthorized" Nil
  /\ fst (serve (UpdateMileStoneByDoctor
                   (mkContext (params (asDoctor "2" "1" []) ++ checked)
                              [("mileStoneID", "1"); ("activity", "done")]
                              None None)) w)
     = JSON StatusOK "ok" Nil
  /\ fst (serve (UpdateMileStoneByDoctor
                   (mkContext (params (asDoctor "1" "1" []) ++ checked)
                              [("mileStoneID", "1"); ("activity", "done")]
                              None None)) w)
     = JSON StatusForbidden "unauthorized" Nil.
Proof. vm_compute. repeat split; reflexivity. Qed.

(** C5, where the code departs from it. A termination with a cause is
    answered with 201 and the stored booking keeps its status and its
    empty cause. *)
Theorem termination_is_not_stored :
  let w := sampleWorld [booking1 committed ""] 1 in
  let out := serve (UpdateRegistrationStatus
                      (statusUpdate "1" terminated "no show")) w in
  fst out = JSON StatusCreated "ok" Nil
  /\ storedRegistration 1 (snd out) = Some (booking1 committed "").
Proof. vm_compute. split; reflexivity. Qed.

Lemma duplicate_check_witness :
  serve (CreateRegistration (mkEnv 2 false false 20240420) (admission 2))
        (sampleWorld [booking1 committed ""] 1)
  = (JSON StatusBadRequest "error" (Err DuplicateRegistration),
     sampleWorld [booking1 committed ""] 1)
  /\ fst (serve (CreateRegistration (mkEnv 2 false false 20240420) (admission 2))
                (sampleWorld [booking1 terminated "moved"] 1))
     <> JSON StatusBadRequest "error" (Err DuplicateRegistration).
Proof.
  split.
  - apply (proj1 (duplicate_check (mkEnv 2 false false 20240420) (admission 2)
                    (sampleWorld [booking1 committed ""] 1)
                    sampleSubmit cardiology (Patient.mk 2 2)
                    (sample_resolves _ 1 2 ltac:(lia)))
                 (booking1 committed "")).
    + left. reflexivity.
    + repeat split.
    + discriminate.
  - apply (proj2 (duplicate_check (mkEnv 2 false false 20240420) (admission 2)
                    (sampleWorld [booking1 terminated "moved"] 1)
                    sampleSubmit cardiology (Patient.mk 2 2)
                    (sample_resolves _ 1 2 ltac:(lia)))).
    + unfold nonzeroKey. cbn. repeat split; discriminate.
    + intros r [<- | []] _. reflexivity.
Defined.


Lemma terminated_is_kept_witness :
  exists r',
    storedRegistration 1
      (run [PutRegistration (statusUpdate "1" accepted "");
            PostRegistration (mkEnv 2 false false 20240420) (admission 2);
            PutRegistration (statusUpdate "1" committed "")]
           (sampleWorld [booking1 terminated "moved"] 1))
    = Some r'
    /\ Registration.Status r' = terminated.
Proof.
  apply (terminated_is_kept _ _ 1 (booking1 terminated "moved")); reflexivity.
Defined.

(** A status update that asks to move the terminated booking 1 to
    [accepted] is answered with 201 and stores nothing. *)
Example terminated_to_accepted :
  serve (UpdateRegistrationStatus (statusUpdate "1" accepted ""))
        (sampleWorld [booking1 terminated "moved"] 1)
  = (JSON StatusCreated "ok" Nil, sampleWorld [booking1 terminated "moved"] 1).
Proof. vm_compute. reflexivity. Qed.

(** A form whose year is zero is checked against the bookings of every
    year: the zero field drops out of the condition. *)
Example zero_year_widens_duplicate_query :
  let c := mkContext [] [] (Some (mkSubmit 1 0 5 1 morning)) (Some 2) in
  serve (CreateRegistration (mkEnv 2 false false 20240420) c)
        (sampleWorld [booking1 committed ""] 1)
  = (JSON StatusBadRequest "error" (Err DuplicateRegistration),
     sampleWorld [booking1 committed ""] 1).
Proof. vm_compute. reflexivity. Qed.

(** An update by doctor 2 is answered with 200 and the stored milestone
    still reads as before. *)
Example UpdateMileStoneByDoctor_ok :
  let w := sampleWorld [booking1 committed ""] 1 in
  let c := mkContext [("mileStoneID", "1"); ("DoctorID", "2"); ("checked", "true")]
                     [("mileStoneID", "1"); ("activity", "done")] None None in
  serve (UpdateMileStoneByDoctor c) w = (JSON StatusOK "ok" Nil, w)
  /\ storedMileStone 1 w = Some (MileStone.mk 1 1 "x-ray" false).
Proof. vm_compute. split; reflexivity. Qed.

Lemma malformed_id_reads_as_zero_witness :
  StrToUInt "x7" = 0
  /\ DoctorAccessToMileStone (asDoctor "x7" "1" []) (sampleWorld [] 0)
     = DoctorAccessToMileStone (set_Param "DoctorID" "0" (asDoctor "x7" "1" []))
                               (sampleWorld [] 0)
  /\ PatientAccessToRegistration (mkContext [("registrationID", "1")] [] None None)
                                 (sampleWorld [booking1 committed ""] 1)
     = PatientAccessToRegistration
         (set_Param "PatientID" "0"
                    (mkContext [("registrationID", "1")] [] None None))
         (sampleWorld [booking1 committed ""] 1).
Proof.
  destruct (malformed_id_reads_as_zero "x7" eq_refl) as [Hzero Hall].
  split; [exact Hzero|].
  destruct (Hall (asDoctor "x7" "1" []) (sampleWorld [] 0)) as [Hdoctor _].
  split; [exact (proj1 (Hdoctor eq_refl))|].
  destruct (malformed_id_reads_as_zero "" eq_refl) as [_ Hmissing].
  destruct (Hmissing (mkContext [("registrationID", "1")] [] None None)
                     (sampleWorld [booking1 committed ""] 1)) as [_ Hpatient].
  exact (proj1 (Hpatient eq_refl)).
Defined.

(** ** Further properties of the handlers *)

Section FurtherProperties.

Context {ext : Externals}.

(** *** The tail of [CreateRegistration] *)

Lemma no_active_duplicate (c : Context) (w : World)
    (submit : RegistrationSubmitJSON) (department : Department.t)
    (patient : Patient.t) :
  clearsDuplicates c w submit department patient ->
  existsb (fun r => negb (String.eqb (Registration.Status r) terminated))
          (gorm.Find
             (gorm.whereRegistration
                (Registration.mk 0 0 (Patient.ID patient) (Department.ID department)
                   (submit_Year submit) (submit_Month submit) (submit_Day submit)
                   (submit_HalfDay submit) "" ""))
             (DB.registrations (db w))) = false.
Proof.
  intros [_ Hall].
  destruct (existsb _ _) eqn:Hdup; [|reflexivity].
  apply existsb_exists in Hdup. destruct Hdup as (r & Hin & Hstatus).
  apply filter_In in Hin. destruct Hin as [Hin Hq].
  apply negb_true_iff, String.eqb_neq in Hstatus.
  exfalso. apply Hstatus. apply Hall; assumption.
Qed.

Lemma resolved_department (c : Context) (w : World)
    (submit : RegistrationSubmitJSON) (department : Department.t)
    (patient : Patient.t) :
  resolves c w submit department patient ->
  Department.ID department = submit_DepartmentID submit
  /\ In department (DB.departments (db w)).
Proof.
  intros (_ & _ & Hdep & _). apply First_sound in Hdep.
  destruct Hdep as [Hin Hd]. apply Z.eqb_eq in Hd. auto.
Qed.

Ltac enter_handler Hres :=
  let Hbody := fresh "Hbody" in
  let Hhalf := fresh "Hhalf" in
  let Hdep := fresh "Hdep" in
  let id := fresh "id" in
  let Hid := fresh "Hid" in
  let Hpat := fresh "Hpat" in
  destruct Hres as (Hbody & Hhalf & Hdep & id & Hid & Hpat);
  unfold CreateRegistration; unfold_handler; cbn;
  rewrite Hbody; cbn; rewrite Hhalf; cbn; rewrite Hdep; cbn;
  rewrite Hid; cbn; rewrite Hpat; cbn.

(** What a request that reaches the assignment is answered and does, by
    the doctors of the department, the count of the scan and the two
    writes. *)
Lemma assignment_outcome (env : Env) (c : Context) (w : World)
    (submit : RegistrationSubmitJSON) (department : Department.t)
    (patient : Patient.t) (schedule : DepartmentSchedule.t) :
  reachesAssignment env c w submit department patient schedule ->
  serve (CreateRegistration env c) w
  = match departmentDoctors department w with
    | [] => (JSON StatusBadRequest "error" (Err CannotAssignDoctor),
             mkWorld (db w) false (writes w))
    | doctor :: _ =>
        if maxInt64 >? gorm.Count (gorm.whereRegistration (countQuery submit department))
                                  (DB.registrations (db w))
        then
          if createFails env then
            (JSON StatusNotAcceptable "error" (Err InvalidRegistration),
             mkWorld (db w) false (writes w ++ [mkWrite Registrations true]))
          else if saveFails env then
            (JSON StatusBadRequest "error" (Err InvalidSchedule),
             mkWorld
               (DB.set_registrations
                  (DB.registrations (db w)
                   ++ [newBooking env submit department patient doctor]) (db w))
               false
               (writes w ++ [mkWrite Registrations true; mkWrite Schedules true]))
          else
            (JSON StatusOK "ok"
               (Success (successPayload env submit department patient doctor w)),
             admittedWorld env schedule
               (newBooking env submit department patient doctor) w)
        else (JSON StatusBadRequest "error" (Err CannotAssignDoctor),
              mkWorld (db w) false (writes w))
    end.
Proof.
  intros (Hclear & Hslot & Hvalid & Hroom).
  pose proof (no_active_duplicate _ _ _ _ _ Hclear) as Hnodup.
  destruct Hclear as [Hres _].
  destruct (resolved_department _ _ _ _ _ Hres) as [Hd _].
  unfold slotOf in Hslot. rewrite <- Hd in Hslot.
  enter_handler Hres.
  rewrite Hnodup. cbn. rewrite Hslot. cbn. rewrite Hvalid. cbn.
  destruct (Z.geb_spec (DepartmentSchedule.Current schedule)
                       (DepartmentSchedule.Capacity schedule)); [lia|].
  cbn. unfold departmentDoctors, countQuery.
  destruct (gorm.Find _ (DB.doctors _)) as [|doctor rest]; [reflexivity|].
  rewrite scanDoctors_head. cbn [fst snd db].
  destruct (maxInt64 >? _); cbn; [|reflexivity].
  unfold CreateRegistrationRow, SaveSchedule. unfold_handler.
  destruct (createFails env); cbn; [reflexivity|].
  destruct (saveFails env); cbn; rewrite <- app_assoc; reflexivity.
Qed.

(** A request that is answered with 200 reached the assignment, found a
    doctor and a count below the initial minimum, and both writes went
    through. *)
Lemma success_reaches (env : Env) (c : Context) (w : World) :
  succeeded (fst (serve (CreateRegistration env c) w)) = true ->
  exists submit department patient schedule doctor rest,
    reachesAssignment env c w submit department patient schedule
    /\ departmentDoctors department w = doctor :: rest
    /\ (maxInt64 >? gorm.Count (gorm.whereRegistration (countQuery submit department))
                               (DB.registrations (db w))) = true
    /\ createFails env = false
    /\ saveFails env = false.
Proof.
  unfold CreateRegistration. unfold_handler. cbn.
  destruct (body c) as [submit|] eqn:Hbody; cbn; [|discriminate].
  destruct (validateHalfDay _) eqn:Hhalf; cbn; [|discriminate].
  destruct (gorm.First _ (DB.departments _)) as [department|] eqn:Hdep; cbn;
    [|discriminate].
  destruct (accountID c) as [id|] eqn:Hid; cbn; [|discriminate].
  destruct (gorm.First _ (DB.patients _)) as [patient|] eqn:Hpat; cbn;
    [|discriminate].
  destruct (existsb _ _) eqn:Hdup; cbn; [discriminate|].
  assert (Hres : resolves c w submit department patient)
    by (repeat split; eauto).
  destruct (resolved_department _ _ _ _ _ Hres) as [Hd _].
  destruct (gorm.First _ (DB.schedules _)) as [schedule|] eqn:Hslot; cbn;
    [|discriminate].
  destruct (validateSchedule (now env) schedule) eqn:Hvalid; cbn; [|discriminate].
  destruct (Z.geb_spec (DepartmentSchedule.Current schedule)
                       (DepartmentSchedule.Capacity schedule)); cbn;
    [discriminate|].
  destruct (gorm.Find _ (DB.doctors _)) as [|doctor rest] eqn:Hdoctors;
    [cbn; discriminate|].
  rewrite scanDoctors_head. cbn [fst snd db].
  destruct (maxInt64 >? _) eqn:Hcount; cbn; [|discriminate].
  unfold CreateRegistrationRow, SaveSchedule. unfold_handler.
  destruct (createFails env) eqn:Hcreate; cbn; [discriminate|].
  destruct (saveFails env) eqn:Hsave; cbn; [discriminate|].
  intros _.
  assert (Hclear : clearsDuplicates c w submit department patient).
  { split; [exact Hres|]. intros r Hin Hq.
    destruct (String.eqb (Registration.Status r) terminated) eqn:Hs;
      [apply String.eqb_eq; exact Hs|].
    exfalso.
    assert (Hex : existsb
                    (fun r => negb (String.eqb (Registration.Status r) terminated))
                    (gorm.Find
                       (gorm.whereRegistration
                          (duplicateQuery submit department patient))
                       (DB.registrations (db w))) = true).
    { apply existsb_exists. exists r. split.
      - apply filter_In. auto.
      - rewrite Hs. reflexivity. }
    unfold duplicateQuery in Hex. congruence. }
  assert (Hs : slotOf submit w = Some schedule)
    by (unfold slotOf; rewrite <- Hd; exact Hslot).
  exists submit, department, patient, schedule, doctor, rest.
  split; [split; [exact Hclear | split; [exact Hs | split; [exact Hvalid | assumption]]]|].
  split; [exact Hdoctors|].
  split; [exact Hcount|]. split; reflexivity.
Qed.

Lemma Count_le_length {A} (p : A -> bool) (rows : list A) :
  gorm.Count p rows <= Z.of_nat (List.length rows).
Proof.
  unfold gorm.Count. apply Nat2Z.inj_le.
  induction rows as [|a rows IH]; cbn; [lia|].
  destruct (p a); cbn; lia.
Qed.

(** X1. An admission answered with 200 stores exactly the booking of the
    request: the key the database handed out, the patient of the
    caller's account, the requested department, date and half day,
    status [committed], and a doctor who is on file for that department;
    the answer carries that key, the department's name and the date; the
    slot the form names is saved with one more registration; the mutex
    is free again. *)
Theorem admission_success (env : Env) (c : Context) (w : World) :
  succeeded (fst (serve (CreateRegistration env c) w)) = true ->
  exists submit department patient schedule doctor,
    reachesAssignment env c w submit department patient schedule
    /\ In doctor (DB.doctors (db w))
    /\ Doctor.DepartmentID doctor = Department.ID department
    /\ serve (CreateRegistration env c) w
       = (JSON StatusOK "ok"
            (Success (successPayload env submit department patient doctor w)),
          admittedWorld env schedule
            (newBooking env submit department patient doctor) w).
Proof.
  intros Hgo.
  destruct (success_reaches env c w Hgo)
    as (submit & department & patient & schedule & doctor & rest
        & Hreach & Hdoctors & Hcount & Hcreate & Hsave).
  exists submit, department, patient, schedule, doctor.
  assert (Hin : In doctor (departmentDoctors department w))
    by (rewrite Hdoctors; left; reflexivity).
  apply filter_In in Hin. destruct Hin as [Hin Hdep].
  apply Z.eqb_eq in Hdep.
  split; [exact Hreach|]. split; [exact Hin|]. split; [exact Hdep|].
  rewrite (assignment_outcome env c w _ _ _ _ Hreach).
  rewrite Hdoctors, Hcount, Hcreate, Hsave. reflexivity.
Qed.

(** X2. A request that reaches the assignment is answered with 200 as
    soon as the department has a doctor, fewer than [maxInt64] bookings
    are stored and neither write fails. *)
Theorem admission_goes_through (env : Env) (c : Context) (w : World)
    (submit : RegistrationSubmitJSON) (department : Department.t)
    (patient : Patient.t) (schedule : DepartmentSchedule.t) :
  reachesAssignment env c w submit department patient schedule ->
  departmentDoctors department w <> [] ->
  Z.of_nat (List.length (DB.registrations (db w))) < maxInt64 ->
  createFails env = false ->
  saveFails env = false ->
  succeeded (fst (serve (CreateRegistration env c) w)) = true.
Proof.
  intros Hreach Hdoctors Hfew Hcreate Hsave.
  rewrite (assignment_outcome env c w _ _ _ _ Hreach).
  destruct (departmentDoctors department w) as [|doctor rest]; [congruence|].
  pose proof (Count_le_length (gorm.whereRegistration (countQuery submit department))
                              (DB.registrations (db w))) as Hle.
  destruct (Z.gtb_spec maxInt64
              (gorm.Count (gorm.whereRegistration (countQuery submit department))
                          (DB.registrations (db w)))); [|lia].
  rewrite Hcreate, Hsave. reflexivity.
Qed.

(** X3. A request that reaches the assignment while fewer than
    [maxInt64] bookings are stored is answered with
    [CannotAssignDoctor] exactly when the department has no doctor; the
    store is then as it was and the mutex is free. *)
Theorem no_doctor_no_admission (env : Env) (c : Context) (w : World)
    (submit : RegistrationSubmitJSON) (department : Department.t)
    (patient : Patient.t) (schedule : DepartmentSchedule.t) :
  reachesAssignment env c w submit department patient schedule ->
  Z.of_nat (List.length (DB.registrations (db w))) < maxInt64 ->
  (departmentDoctors department w = []
   <-> fst (serve (CreateRegistration env c) w)
       = JSON StatusBadRequest "error" (Err CannotAssignDoctor))
  /\ (departmentDoctors department w = [] ->
      snd (serve (CreateRegistration env c) w) = mkWorld (db w) false (writes w)).
Proof.
  intros Hreach Hfew.
  rewrite (assignment_outcome env c w _ _ _ _ Hreach).
  pose proof (Count_le_length (gorm.whereRegistration (countQuery submit department))
                              (DB.registrations (db w))) as Hle.
  destruct (departmentDoctors department w) as [|doctor rest].
  - split; [split; reflexivity | reflexivity].
  - destruct (Z.gtb_spec maxInt64
                (gorm.Count (gorm.whereRegistration (countQuery submit department))
                            (DB.registrations (db w)))); [|lia].
    split; [|discriminate].
    split; [discriminate|].
    destruct (createFails env); [discriminate|].
    destruct (saveFails env); discriminate.
Qed.

(** X4. When the insert of the booking fails, a request that had a
    doctor to assign is answered with 406 [InvalidRegistration]; the
    store is as it was, the one statement sent was sent under the mutex,
    and the mutex is free. *)
Theorem failed_insert_rejected (env : Env) (c : Context) (w : World)
    (submit : RegistrationSubmitJSON) (department : Department.t)
    (patient : Patient.t) (schedule : DepartmentSchedule.t) :
  reachesAssignment env c w submit department patient schedule ->
  departmentDoctors department w <> [] ->
  Z.of_nat (List.length (DB.registrations (db w))) < maxInt64 ->
  createFails env = true ->
  serve (CreateRegistration env c) w
  = (JSON StatusNotAcceptable "error" (Err InvalidRegistration),
     mkWorld (db w) false (writes w ++ [mkWrite Registrations true])).
Proof.
  intros Hreach Hdoctors Hfew Hcreate.
  rewrite (assignment_outcome env c w _ _ _ _ Hreach).
  destruct (departmentDoctors department w) as [|doctor rest]; [congruence|].
  pose proof (Count_le_length (gorm.whereRegistration (countQuery submit department))
                              (DB.registrations (db w))) as Hle.
  destruct (Z.gtb_spec maxInt64
              (gorm.Count (gorm.whereRegistration (countQuery submit department))
                          (DB.registrations (db w)))); [|lia].
  rewrite Hcreate. reflexivity.
Qed.

(** X5. A request that clears the duplicate check and names no slot, or
    a slot that [validateSchedule] declines, is answered with
    [InvalidSchedule], whatever the occupancy of that slot; the store is
    as it was and the mutex is free. *)
Theorem invalid_slot_rejected (env : Env) (c : Context) (w : World)
    (submit : RegistrationSubmitJSON) (department : Department.t)
    (patient : Patient.t) :
  clearsDuplicates c w submit department patient ->
  (slotOf submit w = None
   \/ exists schedule,
        slotOf submit w = Some schedule
        /\ validateSchedule (now env) schedule = false) ->
  serve (CreateRegistration env c) w
  = (JSON StatusBadRequest "error" (Err InvalidSchedule),
     mkWorld (db w) false (writes w)).
Proof.
  intros Hclear Hslot.
  pose proof (no_active_duplicate _ _ _ _ _ Hclear) as Hnodup.
  destruct Hclear as [Hres _].
  destruct (resolved_department _ _ _ _ _ Hres) as [Hd _].
  unfold slotOf in Hslot. rewrite <- Hd in Hslot.
  enter_handler Hres.
  rewrite Hnodup. cbn.
  destruct Hslot as [Hnone | (schedule & Hsome & Hpast)].
  - rewrite Hnone. reflexivity.
  - rewrite Hsome. cbn. rewrite Hpast. reflexivity.
Qed.

(** X6. The checks before the lock, in their order: a body that does
    not decode or a half day the validator declines gives
    [InvalidSubmitFormat]; then an unknown department gives
    [DepartmentNotFound]; then a request without an account id panics;
    then an account without a patient gives [PatientNotFound]. In each
    case the world is as it was. *)
Theorem early_rejections (env : Env) (c : Context) (w : World) :
  (body c = None ->
   serve (CreateRegistration env c) w
   = (JSON StatusBadRequest "error" (Err InvalidSubmitFormat), w))
  /\ forall submit,
       body c = Some submit ->
       (validateHalfDay (submit_HalfDay submit) = false ->
        serve (CreateRegistration env c) w
        = (JSON StatusBadRequest "error" (Err InvalidSubmitFormat), w))
       /\ (validateHalfDay (submit_HalfDay submit) = true ->
           (gorm.First (fun x => Department.ID x =? submit_DepartmentID submit)
                       (DB.departments (db w)) = None ->
            serve (CreateRegistration env c) w
            = (JSON StatusBadRequest "error" (Err DepartmentNotFound), w))
           /\ (gorm.First (fun x => Department.ID x =? submit_DepartmentID submit)
                          (DB.departments (db w)) <> None ->
               (accountID c = None ->
                serve (CreateRegistration env c) w = (Panic, w))
               /\ forall id,
                    accountID c = Some id ->
                    gorm.First (fun x => Patient.AccountID x =? id)
                               (DB.patients (db w)) = None ->
                    serve (CreateRegistration env c) w
                    = (JSON StatusBadRequest "error" (Err PatientNotFound), w))).
Proof.
  unfold CreateRegistration. unfold_handler. cbn.
  split.
  - intros ->. reflexivity.
  - intros submit ->. cbn. split.
    + intros ->. reflexivity.
    + intros ->. cbn. split.
      * intros ->. reflexivity.
      * destruct (gorm.First _ (DB.departments _)) as [department|];
          [|congruence].
        intros _. cbn. split.
        -- intros ->. reflexivity.
        -- intros id Hid Hpat. rewrite Hid. cbn. rewrite Hpat. reflexivity.
Qed.

(** *** What an admission does to the tables *)

(** X7. On a schedule table with proper keys and every slot within its
    capacity, an admission answered with 200 raises the occupancy of the
    slot its form names by exactly one and leaves every other row, and
    every other field of that row, as it was. *)
Theorem admission_increments_slot (env : Env) (c : Context) (w : World) :
  succeeded (fst (serve (CreateRegistration env c) w)) = true ->
  keyed (DB.schedules (db w)) ->
  Forall slot_ok (DB.schedules (db w)) ->
  exists submit schedule,
    body c = Some submit
    /\ slotOf submit w = Some schedule
    /\ DB.schedules (db (snd (serve (CreateRegistration env c) w)))
       = map (fun r =>
                if DepartmentSchedule.ID r =? DepartmentSchedule.ID schedule
                then DepartmentSchedule.set_Current
                       (DepartmentSchedule.Current schedule + 1) schedule
                else r)
             (DB.schedules (db w)).
Proof.
  intros Hgo Hkeyed Hok.
  destruct (success_reaches env c w Hgo)
    as (submit & department & patient & schedule & doctor & rest
        & Hreach & Hdoctors & Hcount & Hcreate & Hsave).
  exists submit, schedule.
  rewrite (assignment_outcome env c w _ _ _ _ Hreach).
  rewrite Hdoctors, Hcount, Hcreate, Hsave.
  destruct Hreach as ((Hres & _) & Hslot & _ & Hroom).
  destruct Hres as (Hbody & _).
  split; [exact Hbody|]. split; [exact Hslot|].
  pose proof Hslot as Hin. apply First_sound in Hin. destruct Hin as [Hin _].
  assert (Hs : slot_ok schedule)
    by (eapply Forall_forall; [exact Hok | exact Hin]).
  destruct (slot_ok_incremented schedule Hs Hroom) as [W _].
  cbn. rewrite Save_keyed by assumption. rewrite W. reflexivity.
Qed.

(** X8. After an admission answered with 200, the same request again is
    answered with [DuplicateRegistration], whatever the database would
    do with its writes, and changes nothing. *)
Theorem repeated_admission_is_duplicate (env env' : Env) (c : Context)
    (w : World) :
  succeeded (fst (serve (CreateRegistration env c) w)) = true ->
  serve (CreateRegistration env' c) (snd (serve (CreateRegistration env c) w))
  = (JSON StatusBadRequest "error" (Err DuplicateRegistration),
     snd (serve (CreateRegistration env c) w)).
Proof.
  intros Hgo.
  destruct (success_reaches env c w Hgo)
    as (submit & department & patient & schedule & doctor & rest
        & Hreach & Hdoctors & Hcount & Hcreate & Hsave).
  rewrite (assignment_outcome env c w _ _ _ _ Hreach).
  rewrite Hdoctors, Hcount, Hcreate, Hsave. cbn [snd].
  destruct Hreach as ((Hres & _) & _).
  assert (Hres' : resolves c
                    (admittedWorld env schedule
                       (newBooking env submit department patient doctor) w)
                    submit department patient) by exact Hres.
  remember (admittedWorld env schedule
              (newBooking env submit department patient doctor) w) as w' eqn:Hw'.
  enter_handler Hres'.
  replace (existsb _ _) with true; [reflexivity|].
  symmetry. apply existsb_exists.
  exists (newBooking env submit department patient doctor). split.
  - apply filter_In. split.
    + subst w'. cbn. apply in_or_app. right. left. reflexivity.
    + unfold gorm.whereRegistration, newBooking. cbn.
      rewrite !condZ_same, !condS_same. reflexivity.
  - reflexivity.
Qed.

(** X9. [CreateRegistration] writes to the booking table and the
    schedule table only: accounts, departments, doctors, patients and
    milestones are as they were, on every path. *)
Theorem CreateRegistration_frame (env : Env) (c : Context) (w : World) :
  DB.accounts (db (snd (serve (CreateRegistration env c) w))) = DB.accounts (db w)
  /\ DB.departments (db (snd (serve (CreateRegistration env c) w)))
     = DB.departments (db w)
  /\ DB.doctors (db (snd (serve (CreateRegistration env c) w))) = DB.doctors (db w)
  /\ DB.patients (db (snd (serve (CreateRegistration env c) w)))
     = DB.patients (db w)
  /\ DB.mileStones (db (snd (serve (CreateRegistration env c) w)))
     = DB.mileStones (db w).
Proof.
  pose proof (CreateRegistration_effect env c w) as E.
  destruct (serve (CreateRegistration env c) w) as [r w1]. cbn in E |- *.
  inversion E; subst; cbn; repeat split; reflexivity.
Qed.

(** *** Runs of requests *)

Lemma handler_adds_at_most_one (r : Request) (w : World) :
  exists new,
    DB.registrations (db (snd (serve (handler r) w)))
    = DB.registrations (db w) ++ new
    /\ (List.length new <= 1)%nat.
Proof.
  destruct (isAdmission r) eqn:Hadm.
  - destruct r; try discriminate. cbn [handler].
    pose proof (CreateRegistration_effect env c w) as E.
    destruct (serve (CreateRegistration env c) w) as [r w1]. cbn in E |- *.
    inversion E; subst; cbn;
      first [ exists []; rewrite app_nil_r; split; [reflexivity | cbn; lia]
            | eexists; split; [reflexivity | cbn; lia] ].
  - destruct (handler_frame r w Hadm) as [-> | [ms ->]]; cbn;
      exists []; rewrite app_nil_r; split; try reflexivity; cbn; lia.
Qed.

(** X10. Over any run of requests the booking table only grows: the
    rows stored before are still there, unchanged and in place, and at
    most one row per request has been added after them. *)
Theorem bookings_only_grow (rs : list Request) (w : World) :
  exists new,
    DB.registrations (db (run rs w)) = DB.registrations (db w) ++ new
    /\ (List.length new <= List.length rs)%nat.
Proof.
  revert w. induction rs as [|r rs IH]; intros w; cbn [run].
  - exists []. rewrite app_nil_r. split; [reflexivity | cbn; lia].
  - destruct (handler_adds_at_most_one r w) as (new1 & E1 & L1).
    destruct (IH (snd (serve (handler r) w))) as (new2 & E2 & L2).
    exists (new1 ++ new2). split.
    + rewrite E2, E1, app_assoc. reflexivity.
    + rewrite length_app. cbn. lia.
Qed.

Lemma admissions_nonneg (i : Z) (rs : list Request) :
  forall w, 0 <= admissions i rs w.
Proof.
  induction rs as [|r rs IH]; intros w; cbn [admissions]; [lia|].
  specialize (IH (snd (serve (handler r) w))).
  destruct (admits i r w); lia.
Qed.

(** X11. Over any run of requests on a schedule table with proper keys,
    started with every slot within its capacity and the mutex free, each
    slot is still on the table under its key, with the capacity it had
    and an occupancy that has not gone down. *)
Theorem capacity_fixed_occupancy_monotone (rs : list Request) (w : World)
    (s : DepartmentSchedule.t) :
  keyed (DB.schedules (db w)) ->
  Forall slot_ok (DB.schedules (db w)) ->
  registrationMutex w = false ->
  In s (DB.schedules (db w)) ->
  exists s1,
    In s1 (DB.schedules (db (run rs w)))
    /\ DepartmentSchedule.ID s1 = DepartmentSchedule.ID s
    /\ DepartmentSchedule.Capacity s1 = DepartmentSchedule.Capacity s
    /\ DepartmentSchedule.Current s <= DepartmentSchedule.Current s1.
Proof.
  intros Hkeyed Hok Hfree Hin.
  destruct (run_count rs w Hkeyed Hok Hfree s Hin) as (s1 & Hin1 & Eid & Ecap & Ecur).
  exists s1. repeat split; auto.
  pose proof (admissions_nonneg (DepartmentSchedule.ID s) rs w). lia.
Qed.

(** *** Milestones *)

Lemma find_app_new {A} (p : A -> bool) (l : list A) (x : A) :
  find p l = None -> p x = true -> find p (l ++ [x]) = Some x.
Proof.
  induction l as [|a l IH]; cbn; intros Hnone Hx.
  - rewrite Hx. reflexivity.
  - destruct (p a); [discriminate | auto].
Qed.

Lemma find_filter_other {A} (p q : A -> bool) (l : list A) :
  (forall x, p x = true -> q x = true) ->
  find p (filter q l) = find p l.
Proof.
  intros Hpq. induction l as [|a l IH]; cbn; [reflexivity|].
  destruct (q a) eqn:Hq; cbn.
  - rewrite IH. reflexivity.
  - destruct (p a) eqn:Hp; [|exact IH].
    rewrite (Hpq a Hp) in Hq. discriminate.
Qed.

Lemma find_filter_removed {A} (p q : A -> bool) (l : list A) :
  (forall x, p x = true -> q x = false) ->
  find p (filter q l) = None.
Proof.
  intros Hpq. induction l as [|a l IH]; cbn; [reflexivity|].
  destruct (q a) eqn:Hq; cbn; [|exact IH].
  destruct (p a) eqn:Hp; [|exact IH].
  rewrite (Hpq a Hp) in Hq. discriminate.
Qed.

Lemma storedMileStone_find (k : Z) (w : World) :
  storedMileStone k w = find (fun x => MileStone.ID x =? k) (DB.mileStones (db w)).
Proof.
  unfold storedMileStone.
  pose proof (@First_by_key MileStone.t _ k) as E.
  cbn [pk Model_MileStone] in E. apply E.
Qed.

(** X12. When the booking id parses and the insert does not fail,
    [CreateMileStoneByDoctor] answers 201 and adds one milestone after
    the stored ones: the key the database handed out, the booking id,
    the activity as given, not checked. If that key was free, a lookup
    under it yields this milestone. *)
Theorem milestone_create_lookup (env : Env) (c : Context) (w : World) (k : Z) :
  strconv.ParseUint (QueryParam c "registrationID") = Some k ->
  createFails env = false ->
  serve (CreateMileStoneByDoctor env c) w
  = (JSON StatusCreated "ok" Nil,
     mkWorld
       (DB.set_mileStones (DB.mileStones (db w) ++ [newMileStone env k c]) (db w))
       (registrationMutex w)
       (writes w ++ [mkWrite MileStones (registrationMutex w)]))
  /\ (storedMileStone (insertID env) w = None ->
      storedMileStone (insertID env)
        (snd (serve (CreateMileStoneByDoctor env c) w))
      = Some (newMileStone env k c)).
Proof.
  intros Hk Hcreate.
  assert (E : serve (CreateMileStoneByDoctor env c) w
              = (JSON StatusCreated "ok" Nil,
                 mkWorld
                   (DB.set_mileStones
                      (DB.mileStones (db w) ++ [newMileStone env k c]) (db w))
                   (registrationMutex w)
                   (writes w ++ [mkWrite MileStones (registrationMutex w)]))).
  { unfold CreateMileStoneByDoctor, CreateMileStoneRow. unfold_handler.
    rewrite Hk. cbn. rewrite Hcreate. reflexivity. }
  split; [exact E|].
  rewrite E. cbn [snd]. rewrite !storedMileStone_find. cbn.
  intros Hfree. apply find_app_new; [exact Hfree|].
  cbn. apply Z.eqb_refl.
Qed.

(** X13. What [CreateMileStoneByDoctor] answers does not depend on the
    store: it looks up neither the booking nor the caller. Unless it
    answers 201 the milestone table is as it was, and it never touches
    another table. *)
Theorem milestone_create_ignores_store (env : Env) (c : Context) (w w' : World) :
  fst (serve (CreateMileStoneByDoctor env c) w)
  = fst (serve (CreateMileStoneByDoctor env c) w')
  /\ (fst (serve (CreateMileStoneByDoctor env c) w) <> JSON StatusCreated "ok" Nil ->
      DB.mileStones (db (snd (serve (CreateMileStoneByDoctor env c) w)))
      = DB.mileStones (db w))
  /\ DB.registrations (db (snd (serve (CreateMileStoneByDoctor env c) w)))
     = DB.registrations (db w)
  /\ DB.schedules (db (snd (serve (CreateMileStoneByDoctor env c) w)))
     = DB.schedules (db w).
Proof.
  unfold CreateMileStoneByDoctor, CreateMileStoneRow. unfold_handler.
  destruct (strconv.ParseUint _); cbn; [|repeat split; reflexivity].
  destruct (createFails env); cbn; repeat split; try reflexivity.
  intros H. congruence.
Qed.

(** *** The milestone check and the delete *)

Lemma DoctorAccessToMileStone_value (c : Context) (w : World) :
  DoctorAccessToMileStone c w
  = (inr (StrToUInt (Param c "DoctorID")
          =? Registration.DoctorID (checkedBooking c w)), w).
Proof.
  unfold DoctorAccessToMileStone, checkedBooking, storedRegistration.
  unfold_handler. cbn.
  destruct (_ =? _); reflexivity.
Qed.

Lemma DeleteMileStoneByDoctor_outcome (c : Context) (w : World) :
  serve (DeleteMileStoneByDoctor c) w
  = if StrToUInt (Param c "DoctorID")
       =? Registration.DoctorID (checkedBooking c w)
    then (JSON StatusForbidden "unauthorized" Nil, w)
    else (JSON StatusOK "ok" Nil, afterDelete c w).
Proof.
  unfold DeleteMileStoneByDoctor.
  unfold serve, bind at 1. rewrite DoctorAccessToMileStone_value.
  destruct (_ =? _); reflexivity.
Qed.

(** X14. A delete answered with 200 for the milestone key [k] leaves no
    milestone under [k], keeps the milestone stored under every other
    key, and touches neither bookings nor schedules. *)
Theorem milestone_delete_lookup (c : Context) (w : World) (k : Z) :
  strconv.Atoi (Param c "mileStoneID") = Some k ->
  fst (serve (DeleteMileStoneByDoctor c) w) = JSON StatusOK "ok" Nil ->
  storedMileStone k (snd (serve (DeleteMileStoneByDoctor c) w)) = None
  /\ (forall k', k' <> k ->
        storedMileStone k' (snd (serve (DeleteMileStoneByDoctor c) w))
        = storedMileStone k' w)
  /\ DB.registrations (db (snd (serve (DeleteMileStoneByDoctor c) w)))
     = DB.registrations (db w)
  /\ DB.schedules (db (snd (serve (DeleteMileStoneByDoctor c) w)))
     = DB.schedules (db w).
Proof.
  intros Hk. rewrite DeleteMileStoneByDoctor_outcome.
  destruct (_ =? _); cbn [fst snd]; [discriminate|]. intros _.
  unfold afterDelete.
  split; [|split; [|split; reflexivity]].
  - rewrite storedMileStone_find. cbn.
    unfold gorm.DeleteInline, gorm.inlineCond. rewrite Hk. cbn.
    apply find_filter_removed. intros x Hx. rewrite Hx. reflexivity.
  - intros k' Hk'. rewrite !storedMileStone_find. cbn.
    unfold gorm.DeleteInline, gorm.inlineCond. rewrite Hk. cbn.
    apply find_filter_other. intros x Hx.
    apply Z.eqb_eq in Hx. apply negb_true_iff. apply Z.eqb_neq. lia.
Qed.

Lemma filter_twice {A} (q : A -> bool) (l : list A) :
  filter q (filter q l) = filter q l.
Proof.
  induction l as [|a l IH]; cbn; [reflexivity|].
  destruct (q a) eqn:Hq; cbn; [rewrite Hq, IH|]; auto.
Qed.

(** X15. Sending the same delete for a numeric milestone key twice
    leaves the milestone table as sending it once. *)
Theorem milestone_delete_idempotent (c : Context) (w : World) (k : Z) :
  strconv.Atoi (Param c "mileStoneID") = Some k ->
  DB.mileStones (db (run [DeleteMileStone c; DeleteMileStone c] w))
  = DB.mileStones (db (run [DeleteMileStone c] w)).
Proof.
  intros Hk. cbn [run handler].
  pose proof (DeleteMileStoneByDoctor_outcome c w) as E1.
  destruct (StrToUInt (Param c "DoctorID")
            =? Registration.DoctorID (checkedBooking c w));
    rewrite E1; cbn [snd].
  - rewrite E1. reflexivity.
  - pose proof (DeleteMileStoneByDoctor_outcome c (afterDelete c w)) as E2.
    destruct (StrToUInt (Param c "DoctorID")
              =? Registration.DoctorID (checkedBooking c (afterDelete c w)));
      rewrite E2; cbn [snd]; [reflexivity|].
    unfold afterDelete. cbn. unfold gorm.DeleteInline, gorm.inlineCond.
    rewrite Hk. apply filter_twice.
Qed.

(** X16. A delete for a key under which no milestone is stored, in a
    store without a booking under key 0, is never answered as not
    found: it is answered with 403 when the caller's id reads as zero and
    with 200 otherwise, and the milestone table stays as it was. *)
Theorem milestone_delete_missing (c : Context) (w : World) (k : Z) :
  strconv.Atoi (Param c "mileStoneID") = Some k ->
  storedMileStone k w = None ->
  storedRegistration 0 w = None ->
  fst (serve (DeleteMileStoneByDoctor c) w)
  = (if StrToUInt (Param c "DoctorID") =? 0
     then JSON StatusForbidden "unauthorized" Nil
     else JSON StatusOK "ok" Nil)
  /\ DB.mileStones (db (snd (serve (DeleteMileStoneByDoctor c) w)))
     = DB.mileStones (db w).
Proof.
  intros Hk Hms Hreg.
  rewrite DeleteMileStoneByDoctor_outcome.
  assert (Hchecked : checkedBooking c w = Registration.zero).
  { unfold checkedBooking, gorm.FirstInline, gorm.inlineCond. rewrite Hk.
    unfold storedMileStone in Hms. cbn [pk Model_MileStone]. rewrite Hms.
    cbn. rewrite Hreg. reflexivity. }
  rewrite Hchecked. cbn [Registration.DoctorID Registration.zero].
  destruct (_ =? 0); cbn [fst snd]; split; try reflexivity.
  unfold afterDelete. cbn.
  unfold gorm.DeleteInline, gorm.inlineCond. rewrite Hk.
  rewrite storedMileStone_find in Hms.
  clear - Hms. induction (DB.mileStones (db w)) as [|a l IH]; cbn in *;
    [reflexivity|].
  destruct (MileStone.ID a =? k); cbn; [discriminate|].
  rewrite IH; auto.
Qed.

(** *** Reading one booking *)

Lemma FirstInline_key {A} `{Model A} (raw : string -> A -> bool)
    (cond : string) (k : Z) (rows : list A) :
  strconv.Atoi cond = Some k ->
  gorm.FirstInline raw cond rows = gorm.First (fun x => pk x =? k) rows.
Proof.
  intros Hk. unfold gorm.FirstInline, gorm.inlineCond. rewrite Hk. reflexivity.
Qed.

Lemma PatientAccessToRegistration_value (c : Context) (w : World) :
  PatientAccessToRegistration c w
  = (inr (StrToUInt (Param c "PatientID")
          =? Registration.PatientID
               (orZero (gorm.FirstInline (rawRegistration (db w)) (Param c "registrationID")
                                         (DB.registrations (db w))))), w).
Proof.
  unfold PatientAccessToRegistration. unfold_handler. cbn.
  destruct (_ =? _); reflexivity.
Qed.

Lemma DoctorAccessToRegistration_value (c : Context) (w : World) :
  DoctorAccessToRegistration c w
  = (inr (StrToUInt (Param c "DoctorID")
          =? Registration.DoctorID
               (orZero (gorm.FirstInline (rawRegistration (db w)) (Param c "registrationID")
                                         (DB.registrations (db w))))), w).
Proof.
  unfold DoctorAccessToRegistration. unfold_handler. cbn.
  destruct (_ =? _); reflexivity.
Qed.

(** X17. With the booking that the path parameter [registrationID]
    names on file, [GetRegistrationByPatient] answers 403 exactly when
    [PatientID] reads as the patient of that booking, and
    [GetRegistrationByDoctor] exactly when [DoctorID] reads as its
    doctor; otherwise the answer is 201 with the booking that the path
    parameter [RegistrationID] selects, zero-valued when it selects
    none. *)
Theorem registration_view_answer (c : Context) (w : World) (k : Z)
    (r : Registration.t) :
  strconv.Atoi (Param c "registrationID") = Some k ->
  storedRegistration k w = Some r ->
  fst (serve (GetRegistrationByPatient c) w)
  = (if StrToUInt (Param c "PatientID") =? Registration.PatientID r
     then JSON StatusForbidden "unauthorized" Nil
     else JSON StatusCreated "ok"
            (OneRegistration
               (orZero (gorm.FirstInline (rawRegistration (db w)) (Param c "RegistrationID")
                                         (DB.registrations (db w))))))
  /\ fst (serve (GetRegistrationByDoctor c) w)
     = (if StrToUInt (Param c "DoctorID") =? Registration.DoctorID r
        then JSON StatusForbidden "unauthorized" Nil
        else JSON StatusCreated "ok"
               (OneRegistration
                  (orZero (gorm.FirstInline (rawRegistration (db w))
                                            (Param c "RegistrationID")
                                            (DB.registrations (db w)))))).
Proof.
  unfold storedRegistration. intros Hk Hr.
  assert (Hchecked : orZero (gorm.FirstInline (rawRegistration (db w))
                               (Param c "registrationID")
                               (DB.registrations (db w))) = r).
  { rewrite (FirstInline_key _ _ k) by exact Hk.
    cbn [pk Model_Registration]. rewrite Hr. reflexivity. }
  split.
  - unfold GetRegistrationByPatient. unfold serve, bind at 1.
    rewrite PatientAccessToRegistration_value, Hchecked.
    destruct (_ =? _); reflexivity.
  - unfold GetRegistrationByDoctor. unfold serve, bind at 1.
    rewrite DoctorAccessToRegistration_value, Hchecked.
    destruct (_ =? _); reflexivity.
Qed.

(** *** Status updates *)

(** X18. [UpdateRegistrationStatus] answers 201 exactly when the booking
    id parses as an unsigned decimal, a booking is stored under it, and
    the request does not ask for [terminated] with an empty cause; the
    status string is not checked in any other way. *)
Theorem status_update_answer (c : Context) (w : World) :
  fst (serve (UpdateRegistrationStatus c) w) = JSON StatusCreated "ok" Nil
  <-> exists k r,
        strconv.ParseUint (QueryParam c "registrationID") = Some k
        /\ storedRegistration k w = Some r
        /\ (QueryParam c "status" = terminated ->
            QueryParam c "terminatedCause" <> "").
Proof.
  unfold storedRegistration, UpdateRegistrationStatus. unfold_handler.
  destruct (strconv.ParseUint (QueryParam c "registrationID")) as [k|] eqn:Hk;
    cbn.
  - destruct (gorm.First _ _) as [r|] eqn:Hr; cbn.
    + destruct (String.eqb_spec (QueryParam c "status") terminated) as [Et|Nt]; cbn.
      * destruct (String.eqb_spec (QueryParam c "terminatedCause") "") as [Ec|Nc];
          cbn.
        -- split; [discriminate|].
           intros (k' & r' & _ & _ & H). exfalso. apply (H Et Ec).
        -- split; [|reflexivity]. intros _. exists k, r. auto.
      * split; [|reflexivity]. intros _. exists k, r.
        split; [reflexivity|]. split; [exact Hr|]. intros Et. contradiction.
    + split; [discriminate|].
      intros (k' & r' & [= <-] & H & _). congruence.
  - split; [discriminate|]. intros (k' & r' & H & _). discriminate.
Qed.

(** *** One department *)

Lemma doctorNames_value (ds : list Doctor.t) :
  forall acc w, doctorNames ds acc w = (inr (acc ++ namesOf ds w), w).
Proof.
  induction ds as [|d ds IH]; intros acc w; cbn.
  - unfold ret. rewrite app_nil_r. reflexivity.
  - unfold bind, query. rewrite IH.
    destruct (gorm.First _ _); cbn.
    + rewrite <- app_assoc. reflexivity.
    + reflexivity.
Qed.

Lemma namesOf_length (ds : list Doctor.t) (w : World) :
  (List.length (namesOf ds w) <= List.length ds)%nat.
Proof.
  unfold namesOf. induction ds as [|d ds IH]; cbn; [lia|].
  rewrite length_app. destruct (gorm.First _ _); cbn; lia.
Qed.

(** X19. [GetDepartmentByID] changes nothing. When its query finds no
    department it answers 404 [DepartmentNotFound]. When it finds one, it
    yields that department's key, name and detail, the schedules that
    carry that department key and no others, and the names of the
    department's doctors in the order of the doctor query, doctors
    without an account being left out. *)
Theorem department_detail (rawDepartment : DB.t -> string -> Department.t -> bool)
    (c : Context) (w : World) :
  (gorm.FirstInline (rawDepartment (db w)) (Param c "departmentID")
                    (DB.departments (db w)) = None ->
   GetDepartmentByID rawDepartment c w
   = (inl (JSON StatusNotFound "error" (Err DepartmentNotFound)), w))
  /\ forall department,
       gorm.FirstInline (rawDepartment (db w)) (Param c "departmentID")
                        (DB.departments (db w)) = Some department ->
       exists detail,
         GetDepartmentByID rawDepartment c w = (inr detail, w)
         /\ detail_ID detail = Department.ID department
         /\ detail_Name detail = Department.Name department
         /\ detail_Detail detail = Department.Detail department
         /\ (forall s, In s (detail_Schedules detail)
                       <-> In s (DB.schedules (db w))
                           /\ DepartmentSchedule.DepartmentID s
                              = Department.ID department)
         /\ detail_Doctors detail = namesOf (departmentDoctors department w) w
         /\ (List.length (detail_Doctors detail)
             <= List.length (departmentDoctors department w))%nat.
Proof.
  unfold GetDepartmentByID. unfold_handler. split.
  - intros ->. reflexivity.
  - intros department ->. cbn.
    rewrite doctorNames_value. cbn.
    eexists. split; [reflexivity|]. cbn.
    split; [reflexivity|]. split; [reflexivity|]. split; [reflexivity|].
    split; [|split; [reflexivity | apply namesOf_length]].
    intros s. unfold gorm.Find. rewrite filter_In, Z.eqb_eq. reflexivity.
Qed.

(** *** Identifiers *)

Lemma Atoi_range (s : string) (i : Z) :
  strconv.Atoi s = Some i -> minInt64 <= i <= maxInt64.
Proof.
  unfold strconv.Atoi. destruct s as [|a rest]; [discriminate|].
  cbv zeta.
  destruct (if (Ascii.eqb a "-" || Ascii.eqb a "+")%bool then rest else String a rest);
    [discriminate|].
  destruct (strconv.digits _ _) as [n|]; [|discriminate].
  destruct ((minInt64 <=? _) && (_ <=? maxInt64))%bool eqn:Hr; [|discriminate].
  intros [= <-]. apply andb_true_iff in Hr. destruct Hr as [H1 H2].
  apply Z.leb_le in H1. apply Z.leb_le in H2. auto.
Qed.

(** X20. [StrToUInt] always yields a value of [uint]. A string that
    parses to a number that is not negative yields that number; one that
    parses to a negative number yields that number plus 2^64, above
    every [int]. The result is zero exactly when the string does not
    parse or parses to zero. *)
Theorem StrToUInt_value (s : string) :
  0 <= StrToUInt s <= maxUint64
  /\ (forall i, strconv.Atoi s = Some i ->
        (0 <= i -> StrToUInt s = i)
        /\ (i < 0 -> StrToUInt s = i + 2 ^ 64 /\ maxInt64 < StrToUInt s))
  /\ (StrToUInt s = 0 <-> strconv.Atoi s = None \/ strconv.Atoi s = Some 0).
Proof.
  unfold StrToUInt, to_uint.
  destruct (strconv.Atoi s) as [i|] eqn:Hs.
  - apply Atoi_range in Hs. unfold minInt64, maxInt64, maxUint64 in *.
    assert (Hpos : 0 <= i -> i mod 2 ^ 64 = i)
      by (intros; apply Z.mod_small; lia).
    assert (Hneg : i < 0 -> i mod 2 ^ 64 = i + 2 ^ 64).
    { intros. replace i with ((i + 2 ^ 64) + (-1) * 2 ^ 64) at 1 by lia.
      rewrite Z.mod_add by lia. apply Z.mod_small. lia. }
    split; [|split].
    + pose proof (Z.mod_pos_bound i (2 ^ 64)). lia.
    + intros j [= <-]. split; [exact Hpos|].
      intros Hlt. rewrite (Hneg Hlt). lia.
    + split.
      * intros Hz. right. f_equal.
        destruct (Z.neg_nonneg_cases i) as [Hlt|Hge];
          [rewrite (Hneg Hlt) in Hz | rewrite (Hpos Hge) in Hz]; lia.
      * intros [H|[= ->]]; [discriminate | reflexivity].
  - unfold maxUint64. split; [lia|]. split; [discriminate|]. tauto.
Qed.

(** X21. [UpdateMileStoneByDoctor] answers 403 when the caller's id
    reads as the doctor of the booking the milestone check looks at;
    otherwise 400 when the path parameter [checked] is not one of the
    spellings [ParseBool] accepts, a missing parameter included; and 200
    in every other case, whatever milestone and activity the query
    names. *)
Theorem milestone_update_answer (c : Context) (w : World) :
  fst (serve (UpdateMileStoneByDoctor c) w)
  = (if StrToUInt (Param c "DoctorID")
        =? Registration.DoctorID (checkedBooking c w)
     then JSON StatusForbidden "unauthorized" Nil
     else match strconv.ParseBool (Param c "checked") with
          | Some _ => JSON StatusOK "ok" Nil
          | None => JSON StatusBadRequest "error" GoError
          end)
  /\ (Param c "checked" = "" ->
      fst (serve (UpdateMileStoneByDoctor c) w) <> JSON StatusOK "ok" Nil).
Proof.
  assert (E : fst (serve (UpdateMileStoneByDoctor c) w)
              = if StrToUInt (Param c "DoctorID")
                   =? Registration.DoctorID (checkedBooking c w)
                then JSON StatusForbidden "unauthorized" Nil
                else match strconv.ParseBool (Param c "checked") with
                     | Some _ => JSON StatusOK "ok" Nil
                     | None => JSON StatusBadRequest "error" GoError
                     end).
  { unfold UpdateMileStoneByDoctor.
    unfold serve, bind at 1. rewrite DoctorAccessToMileStone_value.
    destruct (_ =? _); [reflexivity|].
    unfold_handler. cbn.
    destruct (strconv.ParseBool _); reflexivity. }
  split; [exact E|].
  intros Hmissing. rewrite E, Hmissing.
  destruct (_ =? _); discriminate.
Qed.

End FurtherProperties.

(** ** The further properties on the sample data *)

Lemma sample_clears (current a : Z) :
  1 <= a <= 3 ->
  clearsDuplicates (admission a) (sampleWorld [] current) sampleSubmit cardiology
                   (Patient.mk a a).
Proof.
  intros Ha. split; [apply sample_resolves; exact Ha|].
  intros r [].
Defined.

Lemma sample_reaches (env : Env) (current a : Z) :
  now env = 20240420 ->
  0 <= current < 2 ->
  1 <= a <= 3 ->
  reachesAssignment env (admission a) (sampleWorld [] current) sampleSubmit
                    cardiology (Patient.mk a a) (sampleSlot current).
Proof.
  intros Hnow Hcur Ha.
  split; [apply sample_clears; exact Ha|].
  split; [reflexivity|].
  split; [rewrite Hnow; reflexivity|].
  cbn. lia.
Defined.

Lemma emptyWard_reaches :
  reachesAssignment env1 (admission 1) emptyWard sampleSubmit cardiology
                    (Patient.mk 1 1) (sampleSlot 0).
Proof.
  split; [split|].
  - repeat split; try reflexivity. exists 1. split; reflexivity.
  - intros r [].
  - split; [reflexivity|]. split; [reflexivity|]. cbn. lia.
Defined.

Lemma first_admission_succeeds :
  succeeded (fst (serve (CreateRegistration env1 (admission 1))
                        (sampleWorld [] 0))) = true.
Proof. vm_compute. reflexivity. Defined.

Lemma admission_success_witness :
  exists submit department patient schedule doctor,
    reachesAssignment env1 (admission 1) (sampleWorld [] 0) submit department
                      patient schedule
    /\ In doctor (DB.doctors (db (sampleWorld [] 0)))
    /\ Doctor.DepartmentID doctor = Department.ID department
    /\ serve (CreateRegistration env1 (admission 1)) (sampleWorld [] 0)
       = (JSON StatusOK "ok"
            (Success (successPayload env1 submit department patient doctor
                                     (sampleWorld [] 0))),
          admittedWorld env1 schedule
            (newBooking env1 submit department patient doctor)
            (sampleWorld [] 0)).
Proof.
  exact (admission_success env1 (admission 1) (sampleWorld [] 0)
           first_admission_succeeds).
Defined.

Lemma admission_goes_through_witness :
  succeeded (fst (serve (CreateRegistration env1 (admission 2))
                        (sampleWorld [] 1))) = true.
Proof.
  apply (admission_goes_through env1 (admission 2) (sampleWorld [] 1)
           sampleSubmit cardiology (Patient.mk 2 2) (sampleSlot 1)).
  - apply sample_reaches; [reflexivity | lia | lia].
  - discriminate.
  - cbn. unfold maxInt64. lia.
  - reflexivity.
  - reflexivity.
Defined.

Lemma no_doctor_no_admission_witness :
  fst (serve (CreateRegistration env1 (admission 1)) emptyWard)
  = JSON StatusBadRequest "error" (Err CannotAssignDoctor)
  /\ snd (serve (CreateRegistration env1 (admission 1)) emptyWard)
     = mkWorld (db emptyWard) false (writes emptyWard).
Proof.
  assert (Hfew : Z.of_nat (List.length (DB.registrations (db emptyWard))) < maxInt64)
    by (cbn; unfold maxInt64; lia).
  destruct (no_doctor_no_admission env1 (admission 1) emptyWard sampleSubmit
              cardiology (Patient.mk 1 1) (sampleSlot 0) emptyWard_reaches Hfew)
    as [[Hto _] Hworld].
  split; [exact (Hto eq_refl) | exact (Hworld eq_refl)].
Defined.

Lemma failed_insert_rejected_witness :
  serve (CreateRegistration (mkEnv 1 true false 20240420) (admission 1))
        (sampleWorld [] 0)
  = (JSON StatusNotAcceptable "error" (Err InvalidRegistration),
     mkWorld (db (sampleWorld [] 0)) false
             (writes (sampleWorld [] 0) ++ [mkWrite Registrations true])).
Proof.
  apply (failed_insert_rejected (mkEnv 1 true false 20240420) (admission 1)
           (sampleWorld [] 0) sampleSubmit cardiology (Patient.mk 1 1)
           (sampleSlot 0)).
  - apply sample_reaches; [reflexivity | lia | lia].
  - discriminate.
  - cbn. unfold maxInt64. lia.
  - reflexivity.
Defined.

Lemma invalid_slot_rejected_witness :
  serve (CreateRegistration env1 (formOf (mkSubmit 1 2024 5 2 morning)))
        (sampleWorld [] 0)
  = (JSON StatusBadRequest "error" (Err InvalidSchedule),
     mkWorld (db (sampleWorld [] 0)) false (writes (sampleWorld [] 0)))
  /\ serve (CreateRegistration (mkEnv 1 false false 20250101) (admission 1))
           (sampleWorld [] 2)
     = (JSON StatusBadRequest "error" (Err InvalidSchedule),
        mkWorld (db (sampleWorld [] 2)) false (writes (sampleWorld [] 2))).
Proof.
  split.
  - apply (invalid_slot_rejected env1 (formOf (mkSubmit 1 2024 5 2 morning))
             (sampleWorld [] 0) (mkSubmit 1 2024 5 2 morning) cardiology
             (Patient.mk 1 1)).
    + split; [|intros r []].
      repeat split; try reflexivity. exists 1. split; reflexivity.
    + left. reflexivity.
  - apply (invalid_slot_rejected (mkEnv 1 false false 20250101) (admission 1)
             (sampleWorld [] 2) sampleSubmit cardiology (Patient.mk 1 1)).
    + apply sample_clears. lia.
    + right. exists (sampleSlot 2). split; reflexivity.
Defined.

Lemma early_rejections_witness :
  serve (CreateRegistration env1 (mkContext [] [] None (Some 1))) (sampleWorld [] 0)
  = (JSON StatusBadRequest "error" (Err InvalidSubmitFormat), sampleWorld [] 0)
  /\ serve (CreateRegistration env1 (formOf (mkSubmit 1 2024 5 1 "night")))
           (sampleWorld [] 0)
     = (JSON StatusBadRequest "error" (Err InvalidSubmitFormat), sampleWorld [] 0)
  /\ serve (CreateRegistration env1 (formOf (mkSubmit 9 2024 5 1 morning)))
           (sampleWorld [] 0)
     = (JSON StatusBadRequest "error" (Err DepartmentNotFound), sampleWorld [] 0)
  /\ serve (CreateRegistration env1 (mkContext [] [] (Some sampleSubmit) None))
           (sampleWorld [] 0)
     = (Panic, sampleWorld [] 0)
  /\ serve (CreateRegistration env1 (admission 9)) (sampleWorld [] 0)
     = (JSON StatusBadRequest "error" (Err PatientNotFound), sampleWorld [] 0).
Proof.
  assert (Hfound : gorm.First (fun x => Department.ID x =? 1)
                              (DB.departments (db (sampleWorld [] 0))) <> None)
    by (vm_compute; discriminate).
  split; [|split; [|split; [|split]]].
  - exact (proj1 (early_rejections env1 (mkContext [] [] None (Some 1))
                    (sampleWorld [] 0)) eq_refl).
  - destruct (proj2 (early_rejections env1 (formOf (mkSubmit 1 2024 5 1 "night"))
                       (sampleWorld [] 0)) _ eq_refl) as [Hbad _].
    exact (Hbad eq_refl).
  - destruct (proj2 (early_rejections env1 (formOf (mkSubmit 9 2024 5 1 morning))
                       (sampleWorld [] 0)) _ eq_refl) as [_ Hgood].
    destruct (Hgood eq_refl) as [Hnone _]. exact (Hnone eq_refl).
  - destruct (proj2 (early_rejections env1 (mkContext [] [] (Some sampleSubmit) None)
                       (sampleWorld [] 0)) _ eq_refl) as [_ Hgood].
    destruct (Hgood eq_refl) as [_ Hsome].
    destruct (Hsome Hfound) as [Hpanic _]. exact (Hpanic eq_refl).
  - destruct (proj2 (early_rejections env1 (admission 9) (sampleWorld [] 0))
                    _ eq_refl) as [_ Hgood].
    destruct (Hgood eq_refl) as [_ Hsome].
    destruct (Hsome Hfound) as [_ Hpatient]. exact (Hpatient 9 eq_refl eq_refl).
Defined.

Lemma admission_increments_slot_witness :
  exists submit schedule,
    body (admission 1) = Some submit
    /\ slotOf submit (sampleWorld [] 0) = Some schedule
    /\ DB.schedules
         (db (snd (serve (CreateRegistration env1 (admission 1))
                         (sampleWorld [] 0))))
       = map (fun r =>
                if DepartmentSchedule.ID r =? DepartmentSchedule.ID schedule
                then DepartmentSchedule.set_Current
                       (DepartmentSchedule.Current schedule + 1) schedule
                else r)
             (DB.schedules (db (sampleWorld [] 0))).
Proof.
  exact (admission_increments_slot env1 (admission 1) (sampleWorld [] 0)
           first_admission_succeeds (sample_keyed [] 0)
           (sample_slot_ok 0 ltac:(lia))).
Defined.

Lemma repeated_admission_is_duplicate_witness :
  serve (CreateRegistration env2 (admission 1))
        (snd (serve (CreateRegistration env1 (admission 1)) (sampleWorld [] 0)))
  = (JSON StatusBadRequest "error" (Err DuplicateRegistration),
     snd (serve (CreateRegistration env1 (admission 1)) (sampleWorld [] 0))).
Proof.
  exact (repeated_admission_is_duplicate env1 env2 (admission 1)
           (sampleWorld [] 0) first_admission_succeeds).
Defined.

Lemma capacity_fixed_occupancy_monotone_witness :
  exists s1,
    In s1 (DB.schedules (db (run sampleRun (sampleWorld [] 0))))
    /\ DepartmentSchedule.ID s1 = DepartmentSchedule.ID (sampleSlot 0)
    /\ DepartmentSchedule.Capacity s1 = DepartmentSchedule.Capacity (sampleSlot 0)
    /\ DepartmentSchedule.Current (sampleSlot 0) <= DepartmentSchedule.Current s1.
Proof.
  exact (capacity_fixed_occupancy_monotone sampleRun (sampleWorld [] 0)
           (sampleSlot 0) (sample_keyed [] 0) (sample_slot_ok 0 ltac:(lia))
           eq_refl (or_introl eq_refl)).
Defined.

Lemma milestone_create_lookup_witness :
  storedMileStone 2 (snd (serve (CreateMileStoneByDoctor env2 note)
                                (sampleWorld [] 0)))
  = Some (newMileStone env2 1 note).
Proof.
  assert (Hk : strconv.ParseUint (QueryParam note "registrationID") = Some 1)
    by (vm_compute; reflexivity).
  apply (proj2 (milestone_create_lookup env2 note (sampleWorld [] 0) 1 Hk eq_refl)).
  vm_compute. reflexivity.
Defined.

Lemma milestone_delete_lookup_witness :
  storedMileStone 1
    (snd (serve (DeleteMileStoneByDoctor (asDoctor "2" "1" []))
                (sampleWorld [booking1 committed ""] 1)))
  = None.
Proof.
  assert (Hk : strconv.Atoi (Param (asDoctor "2" "1" []) "mileStoneID") = Some 1)
    by (vm_compute; reflexivity).
  assert (Hok : fst (serve (DeleteMileStoneByDoctor (asDoctor "2" "1" []))
                           (sampleWorld [booking1 committed ""] 1))
                = JSON StatusOK "ok" Nil)
    by (vm_compute; reflexivity).
  exact (proj1 (milestone_delete_lookup (asDoctor "2" "1" [])
                  (sampleWorld [booking1 committed ""] 1) 1 Hk Hok)).
Defined.

Lemma milestone_delete_missing_witness :
  fst (serve (DeleteMileStoneByDoctor (asDoctor "2" "7" []))
             (sampleWorld [booking1 committed ""] 1))
  = (if StrToUInt (Param (asDoctor "2" "7" []) "DoctorID") =? 0
     then JSON StatusForbidden "unauthorized" Nil
     else JSON StatusOK "ok" Nil)
  /\ DB.mileStones
       (db (snd (serve (DeleteMileStoneByDoctor (asDoctor "2" "7" []))
                       (sampleWorld [booking1 committed ""] 1))))
     = DB.mileStones (db (sampleWorld [booking1 committed ""] 1)).
Proof.
  assert (Hk : strconv.Atoi (Param (asDoctor "2" "7" []) "mileStoneID") = Some 7)
    by (vm_compute; reflexivity).
  assert (Hms : storedMileStone 7 (sampleWorld [booking1 committed ""] 1) = None)
    by (vm_compute; reflexivity).
  assert (Hreg : storedRegistration 0 (sampleWorld [booking1 committed ""] 1) = None)
    by (vm_compute; reflexivity).
  exact (milestone_delete_missing (asDoctor "2" "7" [])
           (sampleWorld [booking1 committed ""] 1) 7 Hk Hms Hreg).
Defined.

Lemma registration_view_answer_witness :
  fst (serve (GetRegistrationByPatient (viewAs "2"))
             (sampleWorld [booking1 committed ""] 1))
  = (if StrToUInt (Param (viewAs "2") "PatientID")
        =? Registration.PatientID (booking1 committed "")
     then JSON StatusForbidden "unauthorized" Nil
     else JSON StatusCreated "ok"
            (OneRegistration
               (orZero (gorm.FirstInline
                          (rawRegistration (db (sampleWorld [booking1 committed ""] 1)))
                          (Param (viewAs "2") "RegistrationID")
                          (DB.registrations
                             (db (sampleWorld [booking1 committed ""] 1)))))))
  /\ fst (serve (GetRegistrationByDoctor (viewAs "2"))
                (sampleWorld [booking1 committed ""] 1))
     = (if StrToUInt (Param (viewAs "2") "DoctorID")
           =? Registration.DoctorID (booking1 committed "")
        then JSON StatusForbidden "unauthorized" Nil
        else JSON StatusCreated "ok"
               (OneRegistration
                  (orZero (gorm.FirstInline
                          (rawRegistration (db (sampleWorld [booking1 committed ""] 1)))
                             (Param (viewAs "2") "RegistrationID")
                             (DB.registrations
                                (db (sampleWorld [booking1 committed ""] 1))))))).
Proof.
  assert (Hk : strconv.Atoi (Param (viewAs "2") "registrationID") = Some 1)
    by (vm_compute; reflexivity).
  assert (Hr : storedRegistration 1 (sampleWorld [booking1 committed ""] 1)
               = Some (booking1 committed ""))
    by (vm_compute; reflexivity).
  exact (registration_view_answer (viewAs "2")
           (sampleWorld [booking1 committed ""] 1) 1 (booking1 committed "") Hk Hr).
Defined.

Lemma department_detail_witness :
  exists detail,
    GetDepartmentByID (fun _ _ _ => false) departmentOne (sampleWorld [] 0)
    = (inr detail, sampleWorld [] 0)
    /\ detail_Schedules detail = [sampleSlot 0]
    /\ detail_Doctors detail = ["DornDee"; "EganEve"].
Proof.
  assert (Hfound : gorm.FirstInline (fun _ _ => false)
                     (Param departmentOne "departmentID")
                     (DB.departments (db (sampleWorld [] 0))) = Some cardiology)
    by (vm_compute; reflexivity).
  destruct (proj2 (department_detail (fun _ _ _ => false) departmentOne
                     (sampleWorld [] 0)) cardiology Hfound)
    as (detail & Hrun & _ & _ & _ & _ & Hnames & _).
  exists detail. split; [exact Hrun|].
  assert (E : GetDepartmentByID (fun _ _ _ => false) departmentOne (sampleWorld [] 0)
              = (inr (mkDetail 1 "Cardiology" "heart" ["DornDee"; "EganEve"]
                               [sampleSlot 0]), sampleWorld [] 0))
    by (vm_compute; reflexivity).
  rewrite E in Hrun. injection Hrun as <-. split; reflexivity.
Defined.

(** ** Stored bookings and capacity *)

Section StoredBookings.

Context {ext : Externals}.










End StoredBookings.




(** C6 fails for a form with a zero-valued field: the year 0 drops out
    of the duplicate query, which then finds the booking of the same
    patient for 2024; no booking is stored for the tuple with year 0,
    yet the request is answered with [DuplicateRegistration]. *)
Lemma zero_field_blocks_fresh_tuple :
  let c := mkContext [] [] (Some (mkSubmit 1 0 5 1 morning)) (Some 2) in
  let w := sampleWorld [booking1 committed ""] 1 in
  resolves c w (mkSubmit 1 0 5 1 morning) cardiology (Patient.mk 2 2)
  /\ (forall r,
        In r (DB.registrations (db w)) ->
        sameBooking (mkSubmit 1 0 5 1 morning) cardiology (Patient.mk 2 2) r ->
        Registration.Status r = terminated)
  /\ fst (serve (CreateRegistration env2 c) w)
     = JSON StatusBadRequest "error" (Err DuplicateRegistration).
Proof.
  cbv zeta. split; [|split].
  - repeat split; try reflexivity. exists 2. split; reflexivity.
  - intros r [<- | []] (_ & _ & Hyear & _). discriminate.
  - vm_compute. reflexivity.
Defined.

Lemma milestone_delete_idempotent_witness :
  DB.mileStones
    (db (run [DeleteMileStone (asDoctor "2" "1" []);
              DeleteMileStone (asDoctor "2" "1" [])]
             (sampleWorld [booking1 committed ""] 1)))
  = DB.mileStones
      (db (run [DeleteMileStone (asDoctor "2" "1" [])]
               (sampleWorld [booking1 committed ""] 1))).
Proof.
  assert (Hk : strconv.Atoi (Param (asDoctor "2" "1" []) "mileStoneID") = Some 1)
    by (vm_compute; reflexivity).
  exact (milestone_delete_idempotent (asDoctor "2" "1" [])
           (sampleWorld [booking1 committed ""] 1) 1 Hk).
Defined.
